(** * Parking management system: payment, exit control and dashboard statistics

    Shallow embedding of [src/payment.py] ([calculate_charges], [update_csv],
    [process_payment]), [src/car_exit.py] ([is_payment_complete],
    [trigger_unauthorized_exit_alarm], [reset_unauthorized_attempts],
    [log_exit_to_csv] and the body of the exit loop) and [src/app.py]
    ([update_system_stats]); then the serial request loop of [payment.py]
    with Python's [int()], the camera pipeline shared by [src/car_entry.py]
    and [src/car_exit.py] (plate regex, three-read buffer, majority vote,
    cooldown), and the [log_activity] feed and [/vehicles/inside] route of
    [src/app.py].

    Modelling conventions.
    - A CSV file is [Missing], [Unreadable] (opening it raises) or [Present]
      with its data lines as the csv reader sees them: the rows it returns,
      in order, and [Garbled] where it raises.  It raises at a line with a
      NUL byte or an over-long field; for an undecodable byte it raises at
      the first line that reaches into the 8 KiB chunk holding that byte
      (the text layer decodes whole chunks), so the rows of that chunk
      before the byte are not seen either.  A scan that stops before a
      [Garbled] line never meets its error.
    - A missing cell of a short line (DictReader's [None]) is modelled only
      for the Timestamp ([TsAbsent]); a missing Payment Status is taken as "".
      A line with more fields than the header is a row with [surplus] set.
    - Times are integers: entry timestamps are whole seconds (the format
      '%Y-%m-%d %H:%M:%S' has no fraction), [datetime.now()] is taken in
      microseconds.  The float arithmetic of the source ([seconds / 60],
      [minutes / 60], [hours * 500]) is computed exactly; binary64 rounding
      in the code can make a summed duration one minute off (sessions of
      177878 s, 102017 s and 125 s read 77:46 in the code, 77:47 here) and
      an exit amount one RWF off (7236 s gives 1004 in the code, 1005
      here); the session charges agree below about ninety years per session.
    - Bytes written to an Arduino are timed events (second or microsecond,
      byte): the gate and alarm threads write their first byte when started
      and their '0' after their sleep, so the serial line carries these
      events in time order, interleaved across threads.
    - The alert and report of an alarm thread are appended 5 s after it
      starts; the model appends them at the evaluation, which keeps the order
      of each file since every alarm thread waits the same 5 s. *)

From Stdlib Require Import ZArith String Ascii List Bool.
From stdpp Require Import base gmap strings list.
Import ListNotations.
Open Scope Z_scope.

(** ** Decimal rendering of Python [int]s, as in f-strings *)

Definition digit_char (d : Z) : ascii := ascii_of_nat (48 + Z.to_nat d).

Fixpoint digits_aux (fuel : nat) (n : Z) (acc : string) : string :=
  match fuel with
  | O => acc
  | S f =>
      let acc' := String (digit_char (n mod 10)) acc in
      if n <? 10 then acc' else digits_aux f (n / 10) acc'
  end.

Definition z_to_str (n : Z) : string :=
  let m := Z.abs n in
  let s := digits_aux (S (Z.to_nat (Z.log2 m))) m EmptyString in
  if n <? 0 then String "-" s else s.

Definition sappend := String.append.
Infix "+++" := sappend (right associativity, at level 60).

(** ** The Session table [plates_log.csv]: Plate Number, Payment Status, Timestamp *)

(** The Timestamp cell: a parseable time (seconds), a string [strptime]
    rejects with ValueError, or absent (a short line, DictReader gives
    [None] and [strptime] raises TypeError). *)
Inductive ts_cell :=
| TsOk (seconds : Z)
| TsInvalid
| TsAbsent.

(** [surplus]: the line has more fields than the header; DictReader keeps
    them in a list under the key [None], which no reader of the table uses. *)
Record session_row := mk_session_row {
  plate_number : string;
  payment_status : string;   (* '0' pending, '1' paid *)
  timestamp : ts_cell;
  surplus : bool
}.

(** A row of the three header fields, as [csv.writer] appends them. *)
Definition mk_row (plate status : string) (ts : ts_cell) : session_row :=
  mk_session_row plate status ts false.

(** A data line of a CSV file holding rows of type [A]. *)
Inductive line (A : Type) :=
| Row (r : A)
| Garbled.
Arguments Row {A} r.
Arguments Garbled {A}.

Inductive csv (A : Type) :=
| Missing
| Unreadable
| Present (items : list (line A)).
Arguments Missing {A}.
Arguments Unreadable {A}.
Arguments Present {A} items.

Abbreviation item := (line session_row).
Abbreviation csv_file := (csv session_row).

Definition rows_file {A} (rows : list A) : csv A := Present (map Row rows).

(** Reading every row: [None] when the reader raises on a line. *)
Fixpoint all_rows {A} (its : list (line A)) : option (list A) :=
  match its with
  | [] => Some []
  | Row r :: rest => option_map (cons r) (all_rows rest)
  | Garbled :: _ => None
  end.

(** ** src/payment.py *)

Module Payment.

Definition HOURLY_RATE : Z := 500.
Definition MINIMUM_CHARGE : Z := 500.

Definition us_per_minute : Z := 60000000.
Definition us_per_hour : Z := 3600000000.

(** [math.ceil(a / b)] for [b > 0]. *)
Definition ceil_div (a b : Z) : Z := - ((- a) / b).

(** The third component returned by [calculate_charges]. *)
Inductive duration :=
| Dur (hours minutes : Z)          (* f"{hours}:{minutes:02d}:00" *)
| NoActiveSessions                 (* "No active sessions" *)
| NoRecords                        (* "No records" *)
| CalculationError                 (* "Calculation error" *)
| DurError.                        (* "Error", from process_payment *)

(** One pass of the [for row in reader] loop.  Accumulator:
    (total_charge, unpaid_sessions, total_duration in microseconds).
    [None] is an exception escaping the loop. *)
Definition charge_step (plate : string) (now_us : Z) (acc : Z * Z * Z) (it : item)
  : option (Z * Z * Z) :=
  let '(total, sessions, dur) := acc in
  match it with
  | Garbled => None
  | Row r =>
      if String.eqb (plate_number r) plate && String.eqb (payment_status r) "0" then
        match timestamp r with
        | TsAbsent => None                      (* TypeError, not caught inside *)
        | TsInvalid => Some acc                 (* ValueError: continue *)
        | TsOk t =>
            let elapsed := now_us - t * 1000000 in
            let dur' := dur + elapsed in
            if 0 <? elapsed then
              let hours := ceil_div elapsed us_per_hour in
              let session_charge := Z.max (hours * HOURLY_RATE) MINIMUM_CHARGE in
              Some (total + session_charge, sessions + 1, dur')
            else Some (total, sessions, dur')
        end
      else Some acc
  end.

Fixpoint charge_loop (plate : string) (now_us : Z) (acc : Z * Z * Z) (its : list item)
  : option (Z * Z * Z) :=
  match its with
  | [] => Some acc
  | it :: rest =>
      match charge_step plate now_us acc it with
      | None => None
      | Some acc' => charge_loop plate now_us acc' rest
      end
  end.

Definition duration_str (dur_us : Z) : duration :=
  if 0 <? dur_us then Dur (dur_us / us_per_hour) ((dur_us mod us_per_hour) / us_per_minute)
  else NoActiveSessions.

Definition calculate_charges (f : csv_file) (plate : string) (now_us : Z) : Z * Z * duration :=
  match f with
  | Missing => (0, 0, NoRecords)
  | Unreadable => (0, 0, CalculationError)
  | Present its =>
      match charge_loop plate now_us (0, 0, 0) its with
      | None => (0, 0, CalculationError)
      | Some (total, sessions, dur) => (total, sessions, duration_str dur)
      end
  end.

(** The [print] calls of a payment request, by source line. *)
Inductive print_site :=
| PrintReceived        (* main, line 198 *)
| PrintStart           (* process_payment, line 122 *)
| PrintCalcStart       (* calculate_charges, line 45, before its try *)
| PrintCalcBody        (* calculate_charges, lines 58, 68, 71, 82, inside its try *)
| PrintCalcError       (* calculate_charges, line 86, its except *)
| PrintNoSessions      (* process_payment, line 127 *)
| PrintTotal           (* process_payment, line 130 *)
| PrintDuration        (* process_payment, line 131 *)
| PrintInsufficient    (* process_payment, line 135 *)
| PrintUpdated         (* update_csv, line 112, inside its try *)
| PrintUpdateError     (* update_csv, line 116, its except *)
| PrintSuccess         (* process_payment, line 142 *)
| PrintFailedUpdate.   (* process_payment, line 145 *)

Definition print_site_eqb (p q : print_site) : bool :=
  match p, q with
  | PrintReceived, PrintReceived | PrintStart, PrintStart
  | PrintCalcStart, PrintCalcStart | PrintCalcBody, PrintCalcBody
  | PrintCalcError, PrintCalcError | PrintNoSessions, PrintNoSessions
  | PrintTotal, PrintTotal | PrintDuration, PrintDuration
  | PrintInsufficient, PrintInsufficient | PrintUpdated, PrintUpdated
  | PrintUpdateError, PrintUpdateError | PrintSuccess, PrintSuccess
  | PrintFailedUpdate, PrintFailedUpdate => true
  | _, _ => false
  end.

(** The console: every [print] works, or the first [print] executed at one
    site raises an exception whose [str] is [err] and every other works.
    A console that keeps raising would also break the handlers' own
    [print]s and end [main]; it is not modelled. *)
Inductive console :=
| Works
| FailsOnce (site : print_site) (err : string).

(** The environment process_payment runs in: its console, and
    [write_fault = Some k] makes the write-back raise after [k] data rows
    reached the (already truncated) file, as an I/O error does. *)
Record env := mk_env {
  console_of : console;
  write_fault : option nat
}.

Definition stdout_ok (e : env) : bool :=
  match console_of e with
  | Works => true
  | FailsOnce _ _ => false
  end.

Definition fails_at (e : env) (p : print_site) : bool :=
  match console_of e with
  | Works => false
  | FailsOnce q _ => print_site_eqb p q
  end.

Definition fault_text (e : env) : string :=
  match console_of e with
  | Works => ""
  | FailsOnce _ err => err
  end.

Definition flip_row (plate : string) (r : session_row) : session_row :=
  if String.eqb (plate_number r) plate && String.eqb (payment_status r) "0"
  then mk_session_row (plate_number r) "1" (timestamp r) (surplus r)
  else r.

(** DictWriter writes a [None] cell as the empty string. *)
Definition written_ts (c : ts_cell) : ts_cell :=
  match c with
  | TsAbsent => TsInvalid
  | c => c
  end.

Definition written_row (r : session_row) : session_row :=
  mk_session_row (plate_number r) (payment_status r) (written_ts (timestamp r)) (surplus r).

(** The index of the first row with surplus fields: DictWriter
    (extrasaction='raise') raises ValueError on it. *)
Fixpoint first_surplus (rows : list session_row) : option nat :=
  match rows with
  | [] => None
  | r :: rest => if surplus r then Some 0%nat else option_map S (first_surplus rest)
  end.

(** The number of data rows written before [writerows] raises, if it does. *)
Definition write_stop (e : env) (rows : list session_row) : option nat :=
  match write_fault e, first_surplus rows with
  | None, j => j
  | Some k, None => Some k
  | Some k, Some j => Some (Nat.min k j)
  end.

(** [update_csv]: read every row (flipping the plate's pending ones), then
    reopen the file with 'w' and write the header and the rows back. *)
Definition update_csv (e : env) (f : csv_file) (plate : string) : bool * csv_file :=
  match f with
  | Missing => (false, f)
  | Unreadable => (false, f)
  | Present its =>
      match all_rows its with
      | None => (false, f)
      | Some rows =>
          let updated := map (fun r => written_row (flip_row plate r)) rows in
          match write_stop e rows with
          | None => (true, rows_file updated)
          | Some k => (false, rows_file (firstn k updated))
          end
      end
  end.

Definition processing_error_msg : string := "PROCESSING_ERROR: ".

(** [calculate_charges] with the prints of [e]: [None] when an exception
    leaves it.  A print failing inside its try ends in its except
    (0, 0, "Calculation error"); the try of a present file always reaches
    one (line 82 at the latest). *)
Definition calculate_charges_in (e : env) (f : csv_file) (plate : string) (now_us : Z)
  : option (Z * Z * duration) :=
  match f with
  | Missing => Some (calculate_charges f plate now_us)
  | _ =>
      if fails_at e PrintCalcStart then None
      else if fails_at e PrintCalcBody then Some (0, 0, CalculationError)
      else
        let res := calculate_charges f plate now_us in
        match res with
        | (_, _, CalculationError) => if fails_at e PrintCalcError then None else Some res
        | _ => Some res
        end
  end.

(** [update_csv] with the prints of [e]: its answer ([None] when an
    exception leaves it) and the file afterwards. *)
Definition update_csv_in (e : env) (f : csv_file) (plate : string) : option bool * csv_file :=
  let '(ok, f') := update_csv e f plate in
  match f with
  | Missing => (Some false, f')
  | _ =>
      if ok then (Some (negb (fails_at e PrintUpdated)), f')
      else (if fails_at e PrintUpdateError then None else Some false, f')
  end.

(** [process_payment(plate_number, current_balance)]: the returned triple
    (status, balance, duration) and the Session file afterwards. *)
Definition process_payment (e : env) (f : csv_file) (plate : string) (balance now_us : Z)
  : (string * Z * duration) * csv_file :=
  let error f' := ((processing_error_msg +++ fault_text e, balance, DurError), f') in
  if fails_at e PrintStart then error f
  else
    match calculate_charges_in e f plate now_us with
    | None => error f
    | Some (total_charge, sessions, dur) =>
        if sessions =? 0 then
          if fails_at e PrintNoSessions then error f
          else (("NO_PARKING_SESSIONS", balance, dur), f)
        else if fails_at e PrintTotal || fails_at e PrintDuration then error f
        else if balance <? total_charge then
          if fails_at e PrintInsufficient then error f
          else (("INSUFFICIENT_FUNDS:" +++ z_to_str total_charge +++ "," +++ z_to_str balance,
                 balance, dur), f)
        else
          let new_balance := balance - total_charge in
          match update_csv_in e f plate with
          | (None, f') => error f'
          | (Some true, f') =>
              if fails_at e PrintSuccess then error f'
              else (("PAYMENT_SUCCESS", new_balance, dur), f')
          | (Some false, f') =>
              if fails_at e PrintFailedUpdate then error f'
              else (("UPDATE_ERROR", balance, dur), f')
          end
    end.

End Payment.

(** ** src/car_exit.py *)

Module Exit.

Definition MAX_UNAUTHORIZED_ATTEMPTS : Z := 3.

(** A row of [security_alerts.csv]; the timestamp is left out and the
    Personnel Notified column is always 'YES'. *)
Record alert := mk_alert {
  al_plate : string;
  al_type : string;
  al_status : string;
  al_action : string
}.

(** A row of [exit_log.csv]: Plate Number, Entry Time, Exit Time, Amount
    Paid, Exit Type, Security Status (Duration is Exit minus Entry). *)
Record exit_row := mk_exit {
  ex_plate : string;
  ex_entry : Z;
  ex_exit : Z;
  ex_amount : Z;
  ex_type : string;
  ex_security : string
}.

(** The process state of the exit system and the files it appends to.
    [attempts] is the module-level dict [unauthorized_attempts];
    [signals] are the bytes written to the Arduino, each with the second it
    is written at (the serial line carries them in time order). *)
Record state := mk_state {
  attempts : gmap string Z;
  alerts : list alert;
  reports : list (string * Z);
  exit_log : list exit_row;
  signals : list (Z * string)
}.

Definition set_attempts (m : gmap string Z) (s : state) : state :=
  mk_state m (alerts s) (reports s) (exit_log s) (signals s).
Definition add_alert (a : alert) (s : state) : state :=
  mk_state (attempts s) (alerts s ++ [a]) (reports s) (exit_log s) (signals s).
Definition add_report (r : string * Z) (s : state) : state :=
  mk_state (attempts s) (alerts s) (reports s ++ [r]) (exit_log s) (signals s).
Definition add_exit (x : exit_row) (s : state) : state :=
  mk_state (attempts s) (alerts s) (reports s) (exit_log s ++ [x]) (signals s).
Definition add_signals (b : list (Z * string)) (s : state) : state :=
  mk_state (attempts s) (alerts s) (reports s) (exit_log s) (signals s ++ b).

(** [is_payment_complete]: the first row of the plate with status '1'
    answers True; a missing file, an exception, or no such row answers False. *)
Fixpoint paid_scan (plate : string) (its : list item) : bool :=
  match its with
  | [] => false
  | Garbled :: _ => false
  | Row r :: rest =>
      if String.eqb (plate_number r) plate && String.eqb (payment_status r) "1"
      then true else paid_scan plate rest
  end.

Definition is_payment_complete (f : csv_file) (plate : string) : bool :=
  match f with
  | Missing => false
  | Unreadable => false
  | Present its => paid_scan plate its
  end.

Definition log_security_alert (plate alert_type status action : string) (s : state) : state :=
  add_alert (mk_alert plate alert_type status action) s.

(** Alert type, action taken and Arduino signal for an attempt count. *)
Definition classify (attempt_count : Z) : string * string * string :=
  if MAX_UNAUTHORIZED_ATTEMPTS <=? attempt_count then
    ("CRITICAL_SECURITY_BREACH",
     "LOCKDOWN_INITIATED_AFTER_" +++ z_to_str attempt_count +++ "_ATTEMPTS", "9")
  else if 2 <=? attempt_count then
    ("HIGH_PRIORITY_ALERT", "REPEATED_UNAUTHORIZED_ATTEMPT_" +++ z_to_str attempt_count, "8")
  else ("UNAUTHORIZED_EXIT_ATTEMPT", "ALARM_ACTIVATED_GATE_BLOCKED", "2").

Definition generate_incident_report (plate : string) (n : Z) (s : state) : state :=
  add_report (plate, n) s.

(** The alarm thread started at second [now_s]: the signal at once, '0'
    after its five one-second sleeps. *)
Definition trigger_unauthorized_exit_alarm (plate : string) (now_s : Z) (s : state) : state :=
  let attempt_count := default 0 (attempts s !! plate) + 1 in
  let s1 := set_attempts (<[plate := attempt_count]> (attempts s)) s in
  let '(alert_type, action_taken, arduino_signal) := classify attempt_count in
  let s2 := add_signals [(now_s, arduino_signal); (now_s + 5, "0")] s1 in
  let s3 := log_security_alert plate alert_type "ACTIVE" action_taken s2 in
  if MAX_UNAUTHORIZED_ATTEMPTS <=? attempt_count
  then generate_incident_report plate attempt_count s3
  else s3.

Definition reset_unauthorized_attempts (plate : string) (s : state) : state :=
  set_attempts (delete plate (attempts s)) s.

(** The gate thread started at second [now_s]: '1', then '0' after
    [open_duration = 10] seconds. *)
Definition open_gate (now_s : Z) (s : state) : state := add_signals [(now_s, "1"); (now_s + 10, "0")] s.

(** The first row of the plate, or [None] when the scan raises first. *)
Fixpoint first_row (plate : string) (its : list item) : option (option session_row) :=
  match its with
  | [] => Some None
  | Garbled :: _ => None
  | Row r :: rest =>
      if String.eqb (plate_number r) plate then Some (Some r) else first_row plate rest
  end.

(** [log_exit_to_csv]: exit time [now_s] in whole seconds. *)
Definition log_exit_to_csv (f : csv_file) (plate exit_type : string) (now_s : Z) (s : state)
  : state :=
  match f with
  | Missing | Unreadable => s
  | Present its =>
      match first_row plate its with
      | None | Some None => s
      | Some (Some r) =>
          match timestamp r with
          | TsOk t =>
              let amount_paid :=
                if String.eqb exit_type "AUTHORIZED"
                then Z.max 500 (Z.quot ((now_s - t) * 500) 3600) else 0 in
              add_exit (mk_exit plate t now_s amount_paid exit_type
                          (if String.eqb exit_type "AUTHORIZED" then "CLEARED" else "FLAGGED")) s
          | _ => s
          end
      end
  end.

Inductive mode := Simulation | Camera.

(** One exit evaluation of a plate by the main loop (after the cooldown
    check of camera mode), with or without an Arduino connection.  Camera
    mode only reaches an evaluation with a connection ([read_distance]
    returns None without one); simulation mode runs either way. *)
Definition exit_evaluation (m : mode) (arduino : bool) (f : csv_file) (plate : string)
  (now_s : Z) (s : state) : state :=
  if is_payment_complete f plate then
    let s1 := if arduino then open_gate now_s s else s in
    let s2 := reset_unauthorized_attempts plate s1 in
    log_exit_to_csv f plate "AUTHORIZED" now_s s2
  else
    let s1 :=
      if arduino then trigger_unauthorized_exit_alarm plate now_s s
      else match m with
           | Simulation =>
               log_security_alert plate "UNAUTHORIZED_EXIT_ATTEMPT" "SIMULATED"
                 "5_SECOND_ALARM_ACTIVATED" s
           | Camera => s
           end in
    log_exit_to_csv f plate "UNAUTHORIZED" now_s s1.

Definition init_state : state := mk_state ∅ [] [] [] [].

End Exit.

(** ** src/app.py *)

Module Stats.

Record system_stats := mk_stats {
  total_vehicles : nat;
  vehicles_inside : nat;
  paid_vehicles : nat;
  pending_payments : nat;
  vehicles_exited : nat;
  active_sessions : nat;
  hourly_rate : Z
}.

Definition initial_stats : system_stats := mk_stats 0 0 0 0 0 0 200.

Definition plates_of (rows : list session_row) : gset string :=
  list_to_set (map plate_number rows).

Definition has_pending (rows : list session_row) (p : string) : bool :=
  existsb (fun r => String.eqb (plate_number r) p && String.eqb (payment_status r) "0") rows.

(** The entry-log scan: [None] when it raises. *)
Definition read_sessions (f : csv_file) : option (list session_row) :=
  match f with
  | Missing => Some []
  | Unreadable => None
  | Present its => all_rows its
  end.

Definition read_exits (f : csv Exit.exit_row) : option (gset string) :=
  match f with
  | Missing => Some ∅
  | Unreadable => None
  | Present its => option_map (fun xs => list_to_set (map Exit.ex_plate xs)) (all_rows its)
  end.

(** [update_system_stats]: a full rescan; an exception leaves the stats
    as they were.  The per-plate rescan of the active-session count sees
    the same rows as the first scan. *)
Definition update_system_stats (sf : csv_file) (xf : csv Exit.exit_row) (old : system_stats)
  : system_stats :=
  match read_sessions sf, read_exits xf with
  | Some rows, Some exited_vehicles =>
      let vehicles := plates_of rows in
      let paid_count := List.length (List.filter (fun r => String.eqb (payment_status r) "1") rows) in
      let pending_count := (List.length rows - paid_count)%nat in
      let inside := vehicles ∖ exited_vehicles in
      let active := size (filter (fun p => has_pending rows p = true) inside) in
      mk_stats (size vehicles) (size inside) paid_count pending_count
        (size exited_vehicles) active (hourly_rate old)
  | _, _ => old
  end.

End Stats.

(** ** Text helpers of the serial protocol and of the OCR pipeline

    Strings are byte strings of ASCII characters: the serial lines are
    ASCII commands and the OCR output is restricted to [A-Z0-9] by the
    Tesseract whitelist, so [\d] and [str.strip] are taken on ASCII. *)

(** Python's whitespace ([str.isspace]) on ASCII: \t \n \v \f \r, the
    separators \x1c-\x1f, and space. *)
Definition is_space (c : ascii) : bool :=
  let n := nat_of_ascii c in
  ((9 <=? n) && (n <=? 13))%nat || ((28 <=? n) && (n <=? 32))%nat.

Fixpoint lstrip (s : string) : string :=
  match s with
  | EmptyString => EmptyString
  | String c rest => if is_space c then lstrip rest else s
  end.

Fixpoint rstrip (s : string) : string :=
  match s with
  | EmptyString => EmptyString
  | String c rest =>
      match rstrip rest with
      | EmptyString => if is_space c then EmptyString else String c EmptyString
      | r => String c r
      end
  end.

(** [str.strip()]. *)
Definition strip (s : string) : string := rstrip (lstrip s).

(** [s[n:]]. *)
Fixpoint str_drop (n : nat) (s : string) : string :=
  match n, s with
  | O, _ => s
  | S _, EmptyString => EmptyString
  | S k, String _ rest => str_drop k rest
  end.

(** [s.startswith(pre)]. *)
Definition starts_with (pre s : string) : bool := String.prefix pre s.

(** [s.split(c)] for a one-character separator. *)
Fixpoint split_char (c : ascii) (s : string) : list string :=
  match s with
  | EmptyString => [EmptyString]
  | String x rest =>
      let parts := split_char c rest in
      if Ascii.eqb x c then EmptyString :: parts
      else match parts with
           | p :: ps => String x p :: ps
           | [] => [String x EmptyString]
           end
  end.

Definition is_digit (c : ascii) : bool :=
  let n := nat_of_ascii c in ((48 <=? n) && (n <=? 57))%nat.

Definition is_upper (c : ascii) : bool :=
  let n := nat_of_ascii c in ((65 <=? n) && (n <=? 90))%nat.

Definition digit_value (c : ascii) : Z := Z.of_nat (nat_of_ascii c) - 48.

(** The digits of a decimal literal with single underscores between
    digits: [acc] the value so far, [ndig] the digits read, [after_digit]
    whether the last character read was a digit.  Returns the value and the
    number of digits. *)
Fixpoint parse_digits (acc : Z) (ndig : nat) (after_digit : bool) (s : string)
  : option (Z * nat) :=
  match s with
  | EmptyString => if after_digit then Some (acc, ndig) else None
  | String c rest =>
      if is_digit c then parse_digits (acc * 10 + digit_value c) (S ndig) true rest
      else if Ascii.eqb c "_" && after_digit then parse_digits acc ndig false rest
      else None
  end.

(** CPython's limit on the digits of an [int] converted from a string. *)
Definition int_max_str_digits : nat := 4300.

(** [int(s)] in base 10: surrounding whitespace, an optional sign, digits
    with single underscores between them; [None] is the ValueError. *)
Definition py_int (s : string) : option Z :=
  let body (t : string) :=
    match parse_digits 0 0 false t with
    | Some (v, nd) => if (int_max_str_digits <? nd)%nat then None else Some v
    | None => None
    end in
  match strip s with
  | String c rest =>
      if Ascii.eqb c "-" then option_map Z.opp (body rest)
      else if Ascii.eqb c "+" then body rest
      else body (String c rest)
  | EmptyString => None
  end.

(** ** src/payment.py: the serial request loop of [main] *)

(** [c in s]. *)
Fixpoint has_char (c : ascii) (s : string) : bool :=
  match s with
  | EmptyString => false
  | String x rest => Ascii.eqb x c || has_char c rest
  end.

Module PaymentLoop.
Import Payment.

(** [f"{minutes:02d}"]. *)
Definition pad2 (m : Z) : string :=
  let s := z_to_str m in
  if (String.length s <? 2)%nat then "0" +++ s else s.

(** The duration string returned by [calculate_charges] / [process_payment]. *)
Definition duration_text (d : duration) : string :=
  match d with
  | Dur h m => z_to_str h +++ ":" +++ pad2 m +++ ":00"
  | NoActiveSessions => "No active sessions"
  | NoRecords => "No records"
  | CalculationError => "Calculation error"
  | DurError => "Error"
  end.

(** What one received line produces: the response written back on the
    serial line, the line appended to [payment_log.txt], and the Session
    file afterwards. *)
Record outcome := mk_outcome {
  response : option string;
  log_line : option string;
  session_file : csv_file
}.

(** The transaction log entry built after a processed request. *)
Definition log_entry (stamp plate status : string) (current_balance new_balance : Z)
  (dur : duration) : string :=
  if String.eqb status "PAYMENT_SUCCESS" then
    stamp +++ " - " +++ plate +++ " - SUCCESS: Charged " +++ z_to_str (current_balance - new_balance)
      +++ " RWF for " +++ duration_text dur +++ " parking, Balance: " +++ z_to_str current_balance
      +++ " → " +++ z_to_str new_balance +++ " RWF"
  else if starts_with "INSUFFICIENT_FUNDS:" status then
    let parts := match split_char ":" status with
                 | _ :: p1 :: _ => split_char "," p1
                 | _ => []
                 end in
    let required := match parts with p0 :: _ => p0 | [] => "Unknown" end in
    stamp +++ " - " +++ plate +++ " - INSUFFICIENT_FUNDS: Required " +++ required
      +++ " RWF, Available " +++ z_to_str current_balance +++ " RWF"
  else if String.eqb status "NO_PARKING_SESSIONS" then
    stamp +++ " - " +++ plate +++ " - NO_PARKING_SESSIONS: No unpaid sessions found"
  else stamp +++ " - " +++ plate +++ " - ERROR: " +++ status.

(** The response sent back for a processed request. *)
Definition response_of (status : string) (current_balance new_balance : Z) (dur : duration)
  : string :=
  if String.eqb status "PAYMENT_SUCCESS" then
    "PAYMENT_SUCCESS:" +++ z_to_str new_balance +++ "," +++ z_to_str (current_balance - new_balance)
      +++ "," +++ duration_text dur
  else if starts_with "INSUFFICIENT_FUNDS:" status then status
  else if String.eqb status "NO_PARKING_SESSIONS" then "NO_PARKING_SESSIONS"
  else "ERROR:" +++ status.

(** The body of the [while True] loop for a line returned (already
    stripped) by [safe_serial_read], at time [now_us], [stamp] being the
    formatted [datetime.now()].  A failing first [print] is caught by the
    loop's outer handler, which prints the error and goes on to the next
    line.  The loop's other prints are taken to work; the result is an
    option for the fatal case of a handler's own [print] raising, which the
    console model does not produce. *)
Definition handle_line (e : env) (f : csv_file) (ln stamp : string) (now_us : Z)
  : option outcome :=
  if fails_at e PrintReceived then Some (mk_outcome None None f)
  else if starts_with "PROCESS_PAYMENT:" ln || starts_with "CALCULATE_PAYMENT:" ln then
    let data := if starts_with "CALCULATE_PAYMENT:" ln
                then split_char "," (str_drop 18 ln)
                else split_char "," (str_drop 16 ln) in
    match data with
    | d0 :: d1 :: _ =>
        let plate_number := strip d0 in
        match py_int d1 with
        | None => Some (mk_outcome (Some "ERROR:Invalid balance format") None f)
        | Some current_balance =>
            let '((status, new_balance, dur), f') :=
              process_payment e f plate_number current_balance now_us in
            Some (mk_outcome (Some (response_of status current_balance new_balance dur))
                    (Some (log_entry stamp plate_number status current_balance new_balance dur))
                    f')
        end
    | _ => Some (mk_outcome (Some "ERROR:Invalid data format") None f)
    end
  else Some (mk_outcome None None f).

End PaymentLoop.

(** ** The camera pipeline of src/car_entry.py and src/car_exit.py

    Both loops share the same code from the OCR text on: the plate regex,
    the three-reading buffer, the majority vote and the cooldown check;
    they differ in the cooldown and in what a decision does.  The distance
    gate before it ([read_distance] is None without an Arduino, and the
    pipeline runs only at a distance <= 50) is left to the caller. *)

Module Camera.

Definition BUFFER_SIZE : nat := 3.

(** The text of [plate_pattern = r'([A-Z]{3}\d{3}[A-Z])']. *)
Definition plate_shape (s : string) : bool :=
  match s with
  | String a (String b (String c (String d (String e (String f (String g EmptyString)))))) =>
      is_upper a && is_upper b && is_upper c && is_digit d && is_digit e && is_digit f
      && is_upper g
  | _ => false
  end.

(** [plate_pattern.search(text).group(1)]: the leftmost match. *)
Fixpoint plate_pattern_search (s : string) : option string :=
  match s with
  | EmptyString => None
  | String _ rest =>
      let w := String.substring 0 7 s in
      if plate_shape w then Some w else plate_pattern_search rest
  end.

Fixpoint remove_spaces (s : string) : string :=
  match s with
  | EmptyString => EmptyString
  | String c rest => if Ascii.eqb c " " then remove_spaces rest else String c (remove_spaces rest)
  end.

(** [pytesseract.image_to_string(...).strip().replace(" ", "")]. *)
Definition ocr_clean (text : string) : string := remove_spaces (strip text).

Definition count_of (x : string) (l : list string) : nat :=
  length (List.filter (String.eqb x) l).

(** The keys of [Counter(l)], in first-insertion order. *)
Definition counter_keys (l : list string) : list string :=
  fold_left (fun ks x => if existsb (String.eqb x) ks then ks else ks ++ [x]) l [].

(** [Counter(l).most_common(1)[0][0]]: the first key of greatest count
    ([max] keeps the first maximum); [None] is the IndexError of an empty
    counter. *)
Definition most_common (l : list string) : option string :=
  match counter_keys l with
  | [] => None
  | k :: ks =>
      Some (fold_left (fun best x => if (count_of best l <? count_of x l)%nat then x else best) ks k)
  end.

(** [deque(maxlen=n).append(x)]: the oldest item drops out when full. *)
Definition deque_append (maxlen : nat) (l : list string) (x : string) : list string :=
  let l' := l ++ [x] in skipn (length l' - maxlen) l'.

(** The buffer and the last decision ([last_saved_plate]/[last_entry_time]
    or [last_processed_plate]/[last_exit_time]); times in microseconds. *)
Record watcher := mk_watcher {
  plate_buffer : list string;
  last_plate : option string;
  last_time : Z
}.

Definition init_watcher : watcher := mk_watcher [] None 0.

(** [most_common != last_plate or (now - last_time) > cooldown]. *)
Definition cooldown_passes (cooldown : Z) (w : watcher) (mc : string) (now : Z) : bool :=
  match last_plate w with
  | None => true
  | Some q => negb (String.eqb mc q) || (cooldown <? now - last_time w)
  end.

(** One matched plate: the new watcher and the plate decided on, if any. *)
Definition detect (cooldown : Z) (w : watcher) (plate : string) (now : Z)
  : watcher * option string :=
  let buf := deque_append BUFFER_SIZE (plate_buffer w) plate in
  if Nat.eqb (length buf) BUFFER_SIZE then
    match most_common buf with
    | None => (mk_watcher buf (last_plate w) (last_time w), None)
    | Some mc =>
        if cooldown_passes cooldown w mc now then (mk_watcher [] (Some mc) now, Some mc)
        else (mk_watcher [] (last_plate w) (last_time w), None)
    end
  else (mk_watcher buf (last_plate w) (last_time w), None).

(** *** car_entry.py *)

Definition entry_cooldown : Z := 300 * 1000000.

(** The entry process: its watcher, the rows it appended to
    [plates_log.csv], and the bytes written to the Arduino with the
    microsecond they are written at: the gate thread writes '1' when started
    and '0' after [open_duration = 15] seconds. *)
Record entry_state := mk_entry {
  entry_watch : watcher;
  appended : list session_row;
  entry_gate : list (Z * string)
}.

Definition init_entry : entry_state := mk_entry init_watcher [] [].

Definition entry_on_plate (arduino : bool) (plate : string) (now_us : Z) (st : entry_state)
  : entry_state :=
  let '(w', d) := detect entry_cooldown (entry_watch st) plate now_us in
  match d with
  | Some mc =>
      mk_entry w' (appended st ++ [mk_row mc "0" (TsOk (now_us / 1000000))])
        (entry_gate st ++ (if arduino then [(now_us, "1"); (now_us + 15000000, "0")] else []))
  | None => mk_entry w' (appended st) (entry_gate st)
  end.

(** One OCR result of the entry camera. *)
Definition entry_on_text (arduino : bool) (text : string) (now_us : Z) (st : entry_state)
  : entry_state :=
  match plate_pattern_search (ocr_clean text) with
  | Some plate => entry_on_plate arduino plate now_us st
  | None => st
  end.

Definition entry_run (arduino : bool) (reads : list (string * Z)) (st : entry_state)
  : entry_state :=
  fold_left (fun s '(text, now_us) => entry_on_text arduino text now_us s) reads st.

(** *** car_exit.py, camera mode *)

Definition exit_cooldown : Z := 60 * 1000000.

Definition exit_on_text (arduino : bool) (f : csv_file) (text : string) (now_us : Z)
  (st : watcher * Exit.state) : watcher * Exit.state :=
  match plate_pattern_search (ocr_clean text) with
  | Some plate =>
      let '(w', d) := detect exit_cooldown (fst st) plate now_us in
      match d with
      | Some mc => (w', Exit.exit_evaluation Exit.Camera arduino f mc (now_us / 1000000) (snd st))
      | None => (w', snd st)
      end
  | None => st
  end.

Definition exit_run (arduino : bool) (f : csv_file) (reads : list (string * Z))
  (st : watcher * Exit.state) : watcher * Exit.state :=
  fold_left (fun s '(text, now_us) => exit_on_text arduino f text now_us s) reads st.

End Camera.

(** ** src/app.py: the activity feed and the vehicles-inside route *)

Module Dashboard.

Definition MAX_ACTIVITIES : nat := 50.

Record activity := mk_activity {
  act_timestamp : string;
  act_type : string;
  act_plate : string;
  act_details : string;
  act_status : string
}.

(** [log_activity]: [insert(0, activity)], then one [pop()] when over
    [MAX_ACTIVITIES] (the socket emit is left out). *)
Definition log_activity (a : activity) (recent : list activity) : list activity :=
  let l := a :: recent in
  if (MAX_ACTIVITIES <? length l)%nat then removelast l else l.

(** An entry of the response of [/vehicles/inside]; the two float fields
    ([duration_hours], [estimated_fee]), computed from the entry time and
    the clock, are left out. *)
Record vehicle_view := mk_view {
  v_plate : string;
  v_entry_time : Z;
  v_payment_status : string
}.

(** [entered_vehicles[plate] = {...}]: a dict keeps the position of the
    first insertion of a key and the last value written. *)
Fixpoint dict_set {V} (k : string) (v : V) (d : list (string * V)) : list (string * V) :=
  match d with
  | [] => [(k, v)]
  | (k', v') :: rest => if String.eqb k k' then (k, v) :: rest else (k', v') :: dict_set k v rest
  end.

Definition entered_vehicles (rows : list session_row) : list (string * (ts_cell * string)) :=
  fold_left (fun d r => dict_set (plate_number r) (timestamp r, payment_status r) d) rows [].

(** The last loop; [strptime] raising stops it, keeping what was appended. *)
Fixpoint inside_loop (exited : gset string) (d : list (string * (ts_cell * string)))
  : list vehicle_view :=
  match d with
  | [] => []
  | (plate, (ts, st)) :: rest =>
      if decide (plate ∈ exited) then inside_loop exited rest
      else match ts with
           | TsOk t => mk_view plate t (if String.eqb st "1" then "Paid" else "Pending")
                         :: inside_loop exited rest
           | _ => []
           end
  end.

(** [get_vehicles_inside]; an exception while reading either file leaves
    the list empty. *)
Definition get_vehicles_inside (sf : csv_file) (xf : csv Exit.exit_row) : list vehicle_view :=
  match Stats.read_sessions sf, Stats.read_exits xf with
  | Some rows, Some exited => inside_loop exited (entered_vehicles rows)
  | _, _ => []
  end.

End Dashboard.

(** ** Auxiliary definitions for the statements *)

(** The gate events of the entry loop for rows appended at [times]. *)
Definition gate_events (arduino : bool) (times : list Z) : list (Z * string) :=
  if arduino then flat_map (fun now_us => [(now_us, "1"); (now_us + 15000000, "0")]) times
  else [].

(** The invariant of the entry loop. *)
Definition entry_invariant (arduino : bool) (st : Camera.entry_state) : Prop :=
  (length (Camera.plate_buffer (Camera.entry_watch st)) < 3)%nat
  /\ Forall (fun q => Camera.plate_shape q = true) (Camera.plate_buffer (Camera.entry_watch st))
  /\ Forall (fun r => payment_status r = "0" /\ Camera.plate_shape (plate_number r) = true)
       (Camera.appended st)
  /\ exists times : list Z,
       Forall2 (fun r now_us => timestamp r = TsOk (now_us / 1000000)) (Camera.appended st) times
       /\ Camera.entry_gate st = gate_events arduino times.


Definition pending_of (plate : string) (r : session_row) : bool :=
  String.eqb (plate_number r) plate && String.eqb (payment_status r) "0".





Module Examples.
Definition plate : string := "RAD667J".
Definition us (minutes : Z) : Z := minutes * 60000000.
(** One session entered at t = 0 s. *)
Definition one_session : list session_row := [mk_row plate "0" (TsOk 0)].
(** Two Pending sessions, entered at 0 s and 3600 s: 90 and 30 minutes at now = 90 min. *)
Definition two_sessions : list session_row :=
  [mk_row plate "0" (TsOk 0); mk_row plate "0" (TsOk 3600)].
End Examples.

Definition three_denials (m : Exit.mode) (ard : bool) (f : csv_file) (plate : string)
  (s : Exit.state) : Exit.state :=
  Exit.exit_evaluation m ard f plate 2
    (Exit.exit_evaluation m ard f plate 1 (Exit.exit_evaluation m ard f plate 0 s)).

Definition one_attempt_state : Exit.state :=
  Exit.mk_state {[Examples.plate := 1]} [] [] [] [].

Definition paid_row_of (plate : string) (r : session_row) : Prop :=
  plate_number r = plate /\ payment_status r = "1".

Example z_to_str_1500 : z_to_str 1500 = "1500".
Proof. reflexivity. Qed.
Example z_to_str_0 : z_to_str 0 = "0".
Proof. reflexivity. Qed.
Example z_to_str_neg : z_to_str (-42) = "-42".
Proof. reflexivity. Qed.

(** ** Payment: lemmas *)

Section PaymentFacts.
Import Payment.



Lemma charge_loop_rows_only (plate : string) (now_us : Z) :
  forall its acc res, charge_loop plate now_us acc its = Some res ->
  exists rows, its = map Row rows.
Proof.
  induction its as [|it its IH]; intros acc res H.
  - exists []. reflexivity.
  - simpl in H. destruct (charge_step plate now_us acc it) as [acc'|] eqn:Hs; [|discriminate].
    destruct it as [r|].
    + destruct (IH _ _ H) as [rows ->]. exists (r :: rows). reflexivity.
    + destruct acc as [[? ?] ?]. discriminate.
Qed.

(** The session count never decreases, and the total only moves with it. *)
Lemma charge_loop_count (plate : string) (now_us : Z) :
  forall its t s d t' s' d', charge_loop plate now_us (t, s, d) its = Some (t', s', d') ->
  s <= s' /\ (s' = s -> t' = t).
Proof.
  induction its as [|it its IH]; intros t s d t' s' d' H; simpl in H.
  - injection H as <- <- <-. lia.
  - destruct it as [r|]; [|discriminate]. simpl in H.
    destruct (String.eqb (plate_number r) plate && String.eqb (payment_status r) "0");
      [|exact (IH _ _ _ _ _ _ H)].
    destruct (timestamp r) as [t0| |]; [|exact (IH _ _ _ _ _ _ H)|discriminate].
    destruct (0 <? now_us - t0 * 1000000).
    + apply IH in H. lia.
    + exact (IH _ _ _ _ _ _ H).
Qed.

Lemma calculate_charges_no_sessions (f : csv_file) (plate : string) (now_us total : Z)
  (dur : duration) :
  calculate_charges f plate now_us = (total, 0, dur) -> total = 0.
Proof.
  unfold calculate_charges. destruct f as [| |its]; try (intros H; injection H; auto).
  destruct (charge_loop plate now_us (0, 0, 0) its) as [[[t s] d]|] eqn:Hl;
    intros H; injection H; intros; [|lia].
  apply charge_loop_count in Hl. lia.
Qed.

Lemma calculate_charges_sessions_rows (f : csv_file) (plate : string) (now_us total sessions : Z)
  (dur : duration) :
  calculate_charges f plate now_us = (total, sessions, dur) -> sessions <> 0 ->
  exists rows, f = rows_file rows.
Proof.
  unfold calculate_charges. destruct f as [| |its]; try (intros H; injection H; intros; lia).
  destruct (charge_loop plate now_us (0, 0, 0) its) as [[[t s] d]|] eqn:Hl;
    [|intros H; injection H; intros; lia].
  intros _ _. destruct (charge_loop_rows_only _ _ _ _ _ Hl) as [rows ->].
  exists rows. reflexivity.
Qed.


(** With a working console, [process_payment] is the straight-line code. *)
Lemma process_payment_works (e : env) (f : csv_file) (plate : string) (balance now_us : Z) :
  stdout_ok e = true ->
  process_payment e f plate balance now_us =
    let '(total, sessions, dur) := calculate_charges f plate now_us in
    if sessions =? 0 then (("NO_PARKING_SESSIONS", balance, dur), f)
    else if balance <? total then
      (("INSUFFICIENT_FUNDS:" +++ z_to_str total +++ "," +++ z_to_str balance, balance, dur), f)
    else
      let '(ok, f') := update_csv e f plate in
      if ok then (("PAYMENT_SUCCESS", balance - total, dur), f')
      else (("UPDATE_ERROR", balance, dur), f').
Proof.
  destruct e as [[|q err] w]; unfold stdout_ok; simpl; [intros _|discriminate].
  unfold process_payment, calculate_charges_in, update_csv_in, fails_at. simpl.
  assert (Hc : match f with
               | Missing => Some (calculate_charges f plate now_us)
               | _ => match calculate_charges f plate now_us with
                      | (_, _, CalculationError) => Some (calculate_charges f plate now_us)
                      | _ => Some (calculate_charges f plate now_us)
                      end
               end = Some (calculate_charges f plate now_us))
    by (destruct f; [reflexivity| |];
        destruct (calculate_charges _ plate now_us) as [[? ?] [| | | |]]; reflexivity).
  rewrite Hc.
  destruct (calculate_charges f plate now_us) as [[total sessions] dur].
  destruct (sessions =? 0); [reflexivity|]. simpl.
  destruct (balance <? total); [reflexivity|].
  destruct (update_csv (mk_env Works w) f plate) as [ok f'] eqn:Hu.
  destruct f as [| |its].
  - simpl in Hu. injection Hu as <- <-. reflexivity.
  - destruct ok; reflexivity.
  - destruct ok; reflexivity.
Qed.

Lemma works_no_fault (e : env) (p : print_site) : stdout_ok e = true -> fails_at e p = false.
Proof. unfold stdout_ok, fails_at. destruct (console_of e); [reflexivity|discriminate]. Qed.

Lemma processing_error_not_success (t : string) :
  processing_error_msg +++ t <> "PAYMENT_SUCCESS".
Proof. cbn. discriminate. Qed.

Lemma calculate_charges_in_cases (e : env) (f : csv_file) (plate : string) (now_us : Z)
  (r : Z * Z * duration) :
  calculate_charges_in e f plate now_us = Some r ->
  r = calculate_charges f plate now_us \/ r = (0, 0, CalculationError).
Proof.
  unfold calculate_charges_in.
  destruct f as [| |its]; [intros H; injection H; auto| |];
    (destruct (fails_at e PrintCalcStart); [discriminate|]);
    (destruct (fails_at e PrintCalcBody); [intros H; injection H; auto|]);
    destruct (calculate_charges _ plate now_us) as [[t s] [| | | |]] eqn:Hc;
    try destruct (fails_at e PrintCalcError); intros H; try discriminate;
    injection H; intros <-; auto.
Qed.

(** Every outcome of [process_payment], whatever the console: the balance
    is kept unless the answer is PAYMENT_SUCCESS, which deducts the total of
    [calculate_charges]; the file changes only by the write-back of
    [update_csv], which is reached only with charged sessions covered by
    the balance. *)
Lemma process_payment_spec (e : env) (f : csv_file) (plate : string) (balance now_us : Z) :
  let '(total, sessions, _) := calculate_charges f plate now_us in
  let '((status, bal, _), f') := process_payment e f plate balance now_us in
  ((status <> "PAYMENT_SUCCESS" /\ bal = balance)
   \/ (status = "PAYMENT_SUCCESS" /\ bal = balance - total /\ sessions <> 0 /\ total <= balance))
  /\ (f' = f \/ (sessions <> 0 /\ total <= balance /\ f' = snd (update_csv e f plate))).
Proof.
  pose proof (calculate_charges_in_cases e f plate now_us) as Hci.
  destruct (calculate_charges f plate now_us) as [[total sessions] dur] eqn:Hc.
  assert (Herr : forall f', f' = f \/ (sessions <> 0 /\ total <= balance
                                      /\ f' = snd (update_csv e f plate)) ->
            ((processing_error_msg +++ fault_text e <> "PAYMENT_SUCCESS" /\ balance = balance)
             \/ (processing_error_msg +++ fault_text e = "PAYMENT_SUCCESS"
                  /\ balance = balance - total /\ sessions <> 0 /\ total <= balance))
            /\ (f' = f \/ (sessions <> 0 /\ total <= balance
                            /\ f' = snd (update_csv e f plate))))
    by (intros f' Hf; split; [left; split; [apply processing_error_not_success|reflexivity]|exact Hf]).
  unfold process_payment.
  destruct (fails_at e PrintStart); [apply Herr; left; reflexivity|].
  destruct (calculate_charges_in e f plate now_us) as [[[t s] d]|];
    [|apply Herr; left; reflexivity].
  assert (Hr : (t, s) = (total, sessions) \/ s = 0)
    by (destruct (Hci _ eq_refl) as [H|H]; injection H; intros; subst; auto).
  destruct (s =? 0) eqn:Hs0.
  { destruct (fails_at e PrintNoSessions); [apply Herr; left; reflexivity|].
    split; [left; split; [discriminate|reflexivity]|left; reflexivity]. }
  apply Z.eqb_neq in Hs0.
  destruct Hr as [Hr|Hr]; [injection Hr as -> ->|contradiction].
  destruct (fails_at e PrintTotal || fails_at e PrintDuration);
    [apply Herr; left; reflexivity|].
  destruct (balance <? total) eqn:Hlt.
  { destruct (fails_at e PrintInsufficient); [apply Herr; left; reflexivity|].
    split; [left; split; [cbn; discriminate|reflexivity]|left; reflexivity]. }
  apply Z.ltb_ge in Hlt.
  assert (Hw : forall f', f' = snd (update_csv e f plate) ->
             f' = f \/ (sessions <> 0 /\ total <= balance /\ f' = snd (update_csv e f plate)))
    by (intros f' ->; right; auto).
  unfold update_csv_in.
  destruct (update_csv e f plate) as [ok f'] eqn:Hu. simpl in Hw.
  destruct f as [| |its];
    [|destruct ok; [destruct (fails_at e PrintUpdated)|destruct (fails_at e PrintUpdateError)]
     |destruct ok; [destruct (fails_at e PrintUpdated)|destruct (fails_at e PrintUpdateError)]];
    simpl;
    try (destruct (fails_at e PrintSuccess));
    try (destruct (fails_at e PrintFailedUpdate));
    try solve [apply Herr, Hw; reflexivity];
    try solve [split; [left; split; [discriminate|reflexivity]|apply Hw; reflexivity]];
    try solve [split; [right; auto|apply Hw; reflexivity]].
Qed.

End PaymentFacts.

Lemma all_rows_map {A} (rows : list A) : all_rows (map Row rows) = Some rows.
Proof. induction rows as [|r rows IH]; simpl; [reflexivity | now rewrite IH]. Qed.

(** ** C1: the charging policy *)




(** ** C2 and C7: the statistics of the dashboard *)

(** C2 (counterexample): a plate whose only exit record is UNAUTHORIZED
    is not counted inside, although it has a Session row and no Authorized
    exit. *)
Lemma C2_unauthorized_exit_leaves_inside :
  Stats.vehicles_inside
    (Stats.update_system_stats (rows_file Examples.one_session)
       (rows_file [Exit.mk_exit Examples.plate 0 60 0 "UNAUTHORIZED" "FLAGGED"])
       Stats.initial_stats) = 0%nat.
Proof. vm_compute. reflexivity. Qed.

(** C2 (amended): vehicles_inside is the number of distinct Session plates
    that appear in no ExitRecord row at all, whatever its exit type
    (AUTHORIZED or UNAUTHORIZED) and its time. *)
Theorem C2_inside_plates (rows : list session_row) (xs : list Exit.exit_row)
  (old : Stats.system_stats) :
  exists inside : gset string,
    Stats.vehicles_inside (Stats.update_system_stats (rows_file rows) (rows_file xs) old)
      = size inside
    /\ forall p, p ∈ inside <->
         (exists r, In r rows /\ plate_number r = p) /\
         ~ (exists x, In x xs /\ Exit.ex_plate x = p).
Proof.
  exists (Stats.plates_of rows ∖ list_to_set (map Exit.ex_plate xs)).
  split.
  - unfold Stats.update_system_stats, Stats.read_sessions, Stats.read_exits, rows_file.
    rewrite !all_rows_map. reflexivity.
  - intros p. unfold Stats.plates_of.
    rewrite elem_of_difference, !elem_of_list_to_set, !list_elem_of_In, !in_map_iff.
    split; intros [[r [Hr Hin]] Hx]; split; eauto;
      intros [x [Hx1 Hx2]]; apply Hx; eauto.
Qed.

(** C7: the statistics are a function of the two logs, and a second
    reconciliation over unchanged logs yields the same statistics. *)
Theorem C7_update_system_stats_idempotent (sf : csv_file) (xf : csv Exit.exit_row)
  (old : Stats.system_stats) :
  Stats.update_system_stats sf xf (Stats.update_system_stats sf xf old)
    = Stats.update_system_stats sf xf old.
Proof.
  unfold Stats.update_system_stats.
  destruct (Stats.read_sessions sf), (Stats.read_exits xf); reflexivity.
Qed.

(** ** C3, C4, C10: payment authorization *)




(** C4: with a non-negative balance strictly below the total owed, the
    answer is INSUFFICIENT_FUNDS:<owed>,<balance> and the Session file is
    left exactly as it was. *)
Theorem C4_insufficient_funds (e : Payment.env) (f : csv_file) (plate : string)
  (balance now_us total sessions : Z) (dur : Payment.duration) :
  Payment.stdout_ok e = true ->
  Payment.calculate_charges f plate now_us = (total, sessions, dur) ->
  0 <= balance -> balance < total ->
  Payment.process_payment e f plate balance now_us
    = (("INSUFFICIENT_FUNDS:" +++ z_to_str total +++ "," +++ z_to_str balance, balance, dur), f).
Proof.
  intros Hout Hc Hb Hlt.
  rewrite (process_payment_works e f plate balance now_us Hout), Hc.
  destruct (sessions =? 0) eqn:Hs0.
  - apply Z.eqb_eq in Hs0. subst sessions.
    apply calculate_charges_no_sessions in Hc. lia.
  - destruct (balance <? total) eqn:Hl; [reflexivity|lia].
Qed.

(** Witness for C4: balance 400 against one 30-minute session (owed 500). *)
Lemma C4_insufficient_funds_witness :
  Payment.process_payment (Payment.mk_env Payment.Works None) (rows_file Examples.one_session)
    Examples.plate 400 (Examples.us 30)
  = (("INSUFFICIENT_FUNDS:500,400", 400, Payment.Dur 0 30), rows_file Examples.one_session).
Proof.
  rewrite (C4_insufficient_funds (Payment.mk_env Payment.Works None) (rows_file Examples.one_session)
             Examples.plate 400 (Examples.us 30) 500 1 (Payment.Dur 0 30));
    [reflexivity | reflexivity | reflexivity | lia | lia].
Defined.

(** C10: process_payment returns the caller's balance in every outcome but
    PAYMENT_SUCCESS (NO_PARKING_SESSIONS, INSUFFICIENT_FUNDS, UPDATE_ERROR,
    PROCESSING_ERROR), and on PAYMENT_SUCCESS the balance minus the computed
    total charge. *)
Theorem C10_balance_unchanged_unless_success (e : Payment.env) (f : csv_file)
  (plate : string) (balance now_us : Z) :
  let res := Payment.process_payment e f plate balance now_us in
  (fst (fst (fst res)) <> "PAYMENT_SUCCESS" -> snd (fst (fst res)) = balance)
  /\ (fst (fst (fst res)) = "PAYMENT_SUCCESS" ->
      snd (fst (fst res)) = balance - fst (fst (Payment.calculate_charges f plate now_us))).
Proof.
  pose proof (process_payment_spec e f plate balance now_us) as Hp.
  destruct (Payment.calculate_charges f plate now_us) as [[total sessions] dur].
  destruct (Payment.process_payment e f plate balance now_us) as [[[status bal] d] f'].
  simpl. destruct Hp as [[[Hs Hb] | (Hs & Hb & _)] _]; split; intros H; congruence.
Qed.

(** ** C5, C6, C8, C9: exit control and the escalation counter *)

Section ExitFacts.
Import Exit.

Lemma log_exit_keeps (f : csv_file) (plate ty : string) (now_s : Z) (s : state) :
  let s' := log_exit_to_csv f plate ty now_s s in
  attempts s' = attempts s /\ alerts s' = alerts s /\ reports s' = reports s
  /\ signals s' = signals s.
Proof.
  unfold log_exit_to_csv.
  destruct f as [| |its]; [tauto|tauto|].
  destruct (first_row plate its) as [[r|]|]; [|tauto|tauto].
  destruct (timestamp r); simpl; tauto.
Qed.

(** A denied evaluation with an Arduino connection: one more attempt,
    one alert of the tier of the new count, its signal, and a report from
    the third attempt on. *)
Lemma denied_step (m : mode) (f : csv_file) (plate : string) (now_s : Z) (s : state) :
  is_payment_complete f plate = false ->
  let c := default 0 (attempts s !! plate) + 1 in
  let s' := exit_evaluation m true f plate now_s s in
  attempts s' = <[plate := c]> (attempts s)
  /\ alerts s' = alerts s ++ [mk_alert plate (fst (fst (classify c))) "ACTIVE" (snd (fst (classify c)))]
  /\ reports s' = reports s ++ (if MAX_UNAUTHORIZED_ATTEMPTS <=? c then [(plate, c)] else [])
  /\ signals s' = signals s ++ [(now_s, snd (classify c)); (now_s + 5, "0")].
Proof.
  intros Hp c. unfold exit_evaluation. rewrite Hp.
  destruct (log_exit_keeps f plate "UNAUTHORIZED" now_s (trigger_unauthorized_exit_alarm plate now_s s))
    as (-> & -> & -> & ->).
  unfold trigger_unauthorized_exit_alarm. fold c.
  destruct (classify c) as [[ty act] sig] eqn:Hcl. simpl.
  destruct (MAX_UNAUTHORIZED_ATTEMPTS <=? c); simpl; rewrite ?app_nil_r; auto.
Qed.

Lemma granted_step (m : mode) (ard : bool) (f : csv_file) (plate : string) (now_s : Z)
  (s : state) :
  is_payment_complete f plate = true ->
  let s' := exit_evaluation m ard f plate now_s s in
  attempts s' = delete plate (attempts s) /\ alerts s' = alerts s /\ reports s' = reports s
  /\ signals s' = signals s ++ (if ard then [(now_s, "1"); (now_s + 10, "0")] else []).
Proof.
  intros Hp. unfold exit_evaluation. rewrite Hp.
  match goal with |- context [log_exit_to_csv f plate "AUTHORIZED" now_s ?s0] =>
    destruct (log_exit_keeps f plate "AUTHORIZED" now_s s0) as (-> & -> & -> & ->) end.
  destruct ard; simpl; rewrite ?app_nil_r; auto.
Qed.

Lemma denied_step_no_arduino (m : mode) (f : csv_file) (plate : string) (now_s : Z)
  (s : state) :
  is_payment_complete f plate = false ->
  attempts (exit_evaluation m false f plate now_s s) = attempts s.
Proof.
  intros Hp. unfold exit_evaluation. rewrite Hp.
  match goal with |- context [log_exit_to_csv f plate "UNAUTHORIZED" now_s ?s0] =>
    destruct (log_exit_keeps f plate "UNAUTHORIZED" now_s s0) as (-> & _ & _ & _) end.
  destruct m; reflexivity.
Qed.

Lemma denied_step_simulation_no_arduino (f : csv_file) (plate : string) (now_s : Z)
  (s : state) :
  is_payment_complete f plate = false ->
  let s' := exit_evaluation Simulation false f plate now_s s in
  attempts s' = attempts s
  /\ alerts s' = alerts s ++ [mk_alert plate "UNAUTHORIZED_EXIT_ATTEMPT" "SIMULATED"
                                "5_SECOND_ALARM_ACTIVATED"]
  /\ reports s' = reports s /\ signals s' = signals s.
Proof.
  intros Hp. unfold exit_evaluation. rewrite Hp.
  match goal with |- context [log_exit_to_csv f plate "UNAUTHORIZED" now_s ?s0] =>
    destruct (log_exit_keeps f plate "UNAUTHORIZED" now_s s0) as (-> & -> & -> & ->) end.
  simpl. auto.
Qed.

End ExitFacts.

(** C5 (counterexample): in simulation mode without an Arduino connection,
    three denied exits of a fresh plate log three alerts of the Standard
    type, no incident report, and leave the counter absent. *)
Lemma C5_simulation_without_arduino :
  let s3 := three_denials Exit.Simulation false (rows_file Examples.one_session) Examples.plate
              Exit.init_state in
  map Exit.al_type (Exit.alerts s3)
    = ["UNAUTHORIZED_EXIT_ATTEMPT"; "UNAUTHORIZED_EXIT_ATTEMPT"; "UNAUTHORIZED_EXIT_ATTEMPT"]
  /\ Exit.reports s3 = []
  /\ Exit.attempts s3 !! Examples.plate = None.
Proof. vm_compute. split; [|split]; reflexivity. Qed.

(** C5 (amended): with an Arduino connection (always the case in camera
    mode), three consecutive denied exits of a plate with no recorded
    attempts, at any times, log in order a Standard alert (count 1, action
    ALARM_ACTIVATED_GATE_BLOCKED), a HighPriority alert (count 2) and a
    CriticalBreach alert (count 3, action
    LOCKDOWN_INITIATED_AFTER_3_ATTEMPTS); any denied exit adds an incident
    report exactly when the new count is 3 or more.  In simulation mode
    without a connection, every denied exit logs one alert of the Standard
    type with status SIMULATED and leaves the counters and the reports as
    they were. *)
Theorem C5_escalation_with_arduino (m : Exit.mode) (f : csv_file) (plate : string)
  (t1 t2 t3 : Z) (s : Exit.state) :
  Exit.is_payment_complete f plate = false ->
  Exit.attempts s !! plate = None ->
  let s1 := Exit.exit_evaluation m true f plate t1 s in
  let s2 := Exit.exit_evaluation m true f plate t2 s1 in
  let s3 := Exit.exit_evaluation m true f plate t3 s2 in
  Exit.alerts s3 = Exit.alerts s ++
    [Exit.mk_alert plate "UNAUTHORIZED_EXIT_ATTEMPT" "ACTIVE" "ALARM_ACTIVATED_GATE_BLOCKED";
     Exit.mk_alert plate "HIGH_PRIORITY_ALERT" "ACTIVE" "REPEATED_UNAUTHORIZED_ATTEMPT_2";
     Exit.mk_alert plate "CRITICAL_SECURITY_BREACH" "ACTIVE" "LOCKDOWN_INITIATED_AFTER_3_ATTEMPTS"]
  /\ Exit.reports s1 = Exit.reports s /\ Exit.reports s2 = Exit.reports s
  /\ Exit.reports s3 = Exit.reports s ++ [(plate, 3)]
  /\ Exit.attempts s3 !! plate = Some 3
  /\ (forall now_s s', Exit.reports (Exit.exit_evaluation m true f plate now_s s')
        = Exit.reports s' ++
          (if 3 <=? default 0 (Exit.attempts s' !! plate) + 1
           then [(plate, default 0 (Exit.attempts s' !! plate) + 1)] else []))
  /\ (forall now_s s',
        let s'' := Exit.exit_evaluation Exit.Simulation false f plate now_s s' in
        Exit.alerts s'' = Exit.alerts s' ++
          [Exit.mk_alert plate "UNAUTHORIZED_EXIT_ATTEMPT" "SIMULATED" "5_SECOND_ALARM_ACTIVATED"]
        /\ Exit.attempts s'' = Exit.attempts s' /\ Exit.reports s'' = Exit.reports s').
Proof.
  intros Hp Hnone s1 s2 s3.
  destruct (denied_step m f plate t1 s Hp) as (A1 & L1 & R1 & _).
  destruct (denied_step m f plate t2 s1 Hp) as (A2 & L2 & R2 & _).
  destruct (denied_step m f plate t3 s2 Hp) as (A3 & L3 & R3 & _).
  fold s1 in A1, L1, R1. fold s2 in A2, L2, R2. fold s3 in A3, L3, R3.
  rewrite Hnone in A1, L1, R1. simpl in A1, L1, R1.
  assert (H1 : Exit.attempts s1 !! plate = Some 1) by (rewrite A1; apply lookup_insert_eq).
  rewrite H1 in A2, L2, R2. simpl in A2, L2, R2.
  assert (H2 : Exit.attempts s2 !! plate = Some 2) by (rewrite A2; apply lookup_insert_eq).
  rewrite H2 in A3, L3, R3. simpl in A3, L3, R3.
  rewrite L3, L2, L1, R3, R2, R1, A3, lookup_insert_eq, !app_nil_r, <- !app_assoc.
  split; [reflexivity|]. split; [reflexivity|]. split; [reflexivity|].
  split; [reflexivity|]. split; [reflexivity|]. split.
  - intros now_s s'. destruct (denied_step m f plate now_s s' Hp) as (_ & _ & -> & _).
    reflexivity.
  - intros now_s s'. destruct (denied_step_simulation_no_arduino f plate now_s s' Hp)
      as (HA & HL & HR & _).
    split; [exact HL|split; [exact HA|exact HR]].
Qed.

(** Witness for C5: a fresh plate with one Pending session, camera mode. *)
Lemma C5_escalation_with_arduino_witness :
  let f := rows_file Examples.one_session in
  let s1 := Exit.exit_evaluation Exit.Camera true f Examples.plate 0 Exit.init_state in
  let s2 := Exit.exit_evaluation Exit.Camera true f Examples.plate 1 s1 in
  let s3 := Exit.exit_evaluation Exit.Camera true f Examples.plate 2 s2 in
  Exit.reports s3 = [(Examples.plate, 3)] /\ Exit.attempts s3 !! Examples.plate = Some 3.
Proof.
  destruct (C5_escalation_with_arduino Exit.Camera (rows_file Examples.one_session)
              Examples.plate 0 1 2 Exit.init_state eq_refl eq_refl)
    as (_ & _ & _ & R3 & A3 & _).
  split; [exact R3 | exact A3].
Defined.

(** C6 (counterexample): in simulation mode without an Arduino
    connection, a denied exit does not increment the plate's counter. *)
Lemma C6_denial_without_arduino_keeps_count :
  Exit.attempts (Exit.exit_evaluation Exit.Simulation false (rows_file Examples.one_session)
                   Examples.plate 0 one_attempt_state) !! Examples.plate = Some 1.
Proof. vm_compute. reflexivity. Qed.

(** C6 (amended): an exit evaluation changes no other plate's counter; for
    the evaluated plate a verified (Paid) exit deletes the counter, a
    denied exit with an Arduino connection increments it by exactly one
    (from 0 when absent), and a denied exit without a connection leaves it
    as it was; so the counter never decreases except by that deletion, and
    after it the next denial with a connection is a Standard alert with
    count 1. *)
Theorem C6_attempt_counter (m : Exit.mode) (ard : bool) (f : csv_file) (plate : string)
  (now_s : Z) (s : Exit.state) :
  (forall q, Exit.attempts (Exit.exit_evaluation m ard f plate now_s s) !! q =
     if decide (q = plate) then
       if Exit.is_payment_complete f plate then None
       else if ard then Some (default 0 (Exit.attempts s !! plate) + 1)
       else Exit.attempts s !! plate
     else Exit.attempts s !! q)
  /\ (Exit.is_payment_complete f plate = true ->
      forall (g : csv_file) now', Exit.is_payment_complete g plate = false ->
      let s1 := Exit.exit_evaluation m ard f plate now_s s in
      let s2 := Exit.exit_evaluation m true g plate now' s1 in
      Exit.attempts s2 !! plate = Some 1
      /\ Exit.alerts s2 = Exit.alerts s1 ++
           [Exit.mk_alert plate "UNAUTHORIZED_EXIT_ATTEMPT" "ACTIVE" "ALARM_ACTIVATED_GATE_BLOCKED"]).
Proof.
  split.
  - intros q. destruct (Exit.is_payment_complete f plate) eqn:Hp.
    + destruct (granted_step m ard f plate now_s s Hp) as (-> & _).
      case_decide as Hq; [subst q; apply lookup_delete_eq | apply lookup_delete_ne; congruence].
    + destruct ard.
      * destruct (denied_step m f plate now_s s Hp) as (-> & _).
        case_decide as Hq; [subst q; apply lookup_insert_eq | apply lookup_insert_ne; congruence].
      * rewrite denied_step_no_arduino by exact Hp.
        case_decide as Hq; [subst q|]; reflexivity.
  - intros Hp g now' Hg s1 s2.
    destruct (granted_step m ard f plate now_s s Hp) as (A1 & _).
    destruct (denied_step m g plate now' s1 Hg) as (A2 & L2 & _).
    fold s1 in A1. fold s2 in A2, L2.
    rewrite A1, lookup_delete_eq in A2, L2. simpl in A2, L2.
    rewrite A2, lookup_insert_eq. split; [reflexivity | exact L2].
Qed.

(** Witness for C6: a paid exit resets a counter of 1, the next denial is
    Standard with count 1. *)
Lemma C6_attempt_counter_witness :
  let paid := rows_file [mk_row Examples.plate "1" (TsOk 0)] in
  let s1 := Exit.exit_evaluation Exit.Camera true paid Examples.plate 10 one_attempt_state in
  let s2 := Exit.exit_evaluation Exit.Camera true (rows_file Examples.one_session)
              Examples.plate 20 s1 in
  Exit.attempts s2 !! Examples.plate = Some 1.
Proof.
  destruct (C6_attempt_counter Exit.Camera true (rows_file [mk_row Examples.plate "1" (TsOk 0)])
              Examples.plate 10 one_attempt_state) as [_ H].
  destruct (H eq_refl (rows_file Examples.one_session) 20 eq_refl) as [A _].
  exact A.
Defined.

(** C8: the exit payment check fails closed: a missing or unreadable
    Session file answers False, an exception raised while scanning (before
    any Paid row of the plate was read) answers False, and True is only
    answered after a Paid row of the plate was read with no error before it. *)
Theorem C8_payment_check_fails_closed (plate : string) :
  Exit.is_payment_complete Missing plate = false
  /\ Exit.is_payment_complete Unreadable plate = false
  /\ (forall pre post, (forall r, In r pre -> ~ paid_row_of plate r) ->
      Exit.is_payment_complete (Present (map Row pre ++ Garbled :: post)) plate = false)
  /\ (forall f, Exit.is_payment_complete f plate = true ->
      exists pre r post, f = Present (map Row pre ++ Row r :: post) /\ paid_row_of plate r).
Proof.
  split; [reflexivity|]. split; [reflexivity|]. split.
  - intros pre post Hpre. simpl. induction pre as [|r pre IH]; simpl; [reflexivity|].
    destruct (String.eqb (plate_number r) plate && String.eqb (payment_status r) "1") eqn:Hm.
    + exfalso. apply (Hpre r); [left; reflexivity|].
      apply andb_true_iff in Hm as [H1 H2].
      apply String.eqb_eq in H1, H2. split; assumption.
    + apply IH. intros r' Hin. apply Hpre. right. exact Hin.
  - intros f Hf. destruct f as [| |its]; try discriminate. simpl in Hf.
    induction its as [|it its IH]; [discriminate|].
    destruct it as [r|]; [|discriminate]. simpl in Hf.
    destruct (String.eqb (plate_number r) plate && String.eqb (payment_status r) "1") eqn:Hm.
    + exists [], r, its. split; [reflexivity|].
      apply andb_true_iff in Hm as [H1 H2].
      apply String.eqb_eq in H1, H2. split; assumption.
    + destruct (IH Hf) as (pre & r' & post & Heq & Hr').
      injection Heq as ->.
      exists (r :: pre), r', post. split; [reflexivity | exact Hr'].
Qed.

(** Witness for C8: a garbled line before the plate's Paid row. *)
Lemma C8_payment_check_fails_closed_witness :
  Exit.is_payment_complete
    (Present (map Row [mk_row Examples.plate "0" (TsOk 0)] ++
              Garbled :: [Row (mk_row Examples.plate "1" (TsOk 0))])) Examples.plate = false.
Proof.
  destruct (C8_payment_check_fails_closed Examples.plate) as (_ & _ & H & _).
  apply H. intros r [<- | []]. intros [_ Hs]. discriminate.
Defined.

(** C9: on a Session file read without error, the exit check answers
    True iff some row of the plate is Paid, whatever the other rows; so a
    plate with an old Paid row and a newer Pending row is let out: its
    counter is deleted, no alert is raised, an AUTHORIZED exit is logged,
    and the gate is opened whenever an Arduino is connected. *)
Theorem C9_any_paid_row_authorizes (plate : string) :
  (forall rows, Exit.is_payment_complete (rows_file rows) plate = true <->
     exists r, In r rows /\ paid_row_of plate r)
  /\ (forall m ard t_old t_new now_s s,
      let f := rows_file [mk_row plate "1" (TsOk t_old); mk_row plate "0" (TsOk t_new)] in
      let s' := Exit.exit_evaluation m ard f plate now_s s in
      Exit.attempts s' !! plate = None
      /\ Exit.alerts s' = Exit.alerts s
      /\ Exit.signals s' = Exit.signals s ++ (if ard then [(now_s, "1"); (now_s + 10, "0")] else [])
      /\ exists amount, 500 <= amount
         /\ Exit.exit_log s' = Exit.exit_log s ++
              [Exit.mk_exit plate t_old now_s amount "AUTHORIZED" "CLEARED"]).
Proof.
  split.
  - intros rows. unfold rows_file. simpl. induction rows as [|r rows IH]; simpl.
    + split; [discriminate | intros (r & [] & _)].
    + destruct (String.eqb (plate_number r) plate && String.eqb (payment_status r) "1") eqn:Hm.
      * split; [intros _|reflexivity]. exists r. split; [left; reflexivity|].
        apply andb_true_iff in Hm as [H1 H2].
        apply String.eqb_eq in H1, H2. split; assumption.
      * rewrite IH. split.
        -- intros (r' & Hin & Hr'). exists r'. split; [right; exact Hin | exact Hr'].
        -- intros (r' & [<- | Hin] & Hr').
           ++ exfalso. destruct Hr' as [H1 H2]. rewrite H1, H2, String.eqb_refl in Hm.
              discriminate.
           ++ exists r'. split; assumption.
  - intros m ard t_old t_new now_s s f s'.
    assert (Hp : Exit.is_payment_complete f plate = true)
      by (simpl; rewrite String.eqb_refl; reflexivity).
    destruct (granted_step m ard f plate now_s s Hp) as (A & L & _ & S).
    fold s' in A, L, S.
    split; [rewrite A; apply lookup_delete_eq|]. split; [exact L|]. split; [exact S|].
    exists (Z.max 500 (Z.quot ((now_s - t_old) * 500) 3600)). split; [lia|].
    unfold s', Exit.exit_evaluation. rewrite Hp.
    unfold Exit.log_exit_to_csv, f, rows_file. simpl. rewrite String.eqb_refl. simpl.
    destruct ard; reflexivity.
Qed.

(** Witness for C10: the write-back fails before any row is written;
    the answer is UPDATE_ERROR with the balance unchanged. *)
Lemma C10_balance_unchanged_unless_success_witness :
  let res := Payment.process_payment (Payment.mk_env Payment.Works (Some 0%nat))
               (rows_file Examples.two_sessions) Examples.plate 2000 (Examples.us 90) in
  fst (fst (fst res)) = "UPDATE_ERROR" /\ snd (fst (fst res)) = 2000.
Proof.
  split; [reflexivity|].
  apply (proj1 (C10_balance_unchanged_unless_success (Payment.mk_env Payment.Works (Some 0%nat))
                  (rows_file Examples.two_sessions) Examples.plate 2000 (Examples.us 90))).
  vm_compute. discriminate.
Defined.

(** ** Further properties of the payment service, the camera loops and the dashboard *)

Lemma charge_loop_bounds (plate : string) (now_us : Z) :
  forall its t s d t' s' d', Payment.charge_loop plate now_us (t, s, d) its = Some (t', s', d') ->
  s <= s' /\ t + Payment.MINIMUM_CHARGE * (s' - s) <= t' /\ (t' - t) mod Payment.MINIMUM_CHARGE = 0.
Proof.
  induction its as [|it its IH]; intros t s d t' s' d' H; simpl in H.
  - injection H as <- <- <-. rewrite !Z.sub_diag. split; [lia|]. split; [lia|reflexivity].
  - destruct it as [r|]; [|discriminate]. simpl in H.
    destruct (String.eqb (plate_number r) plate && String.eqb (payment_status r) "0");
      [|exact (IH _ _ _ _ _ _ H)].
    destruct (timestamp r) as [t0| |]; [|exact (IH _ _ _ _ _ _ H)|discriminate].
    destruct (0 <? now_us - t0 * 1000000) eqn:Hp; [|exact (IH _ _ _ _ _ _ H)].
    apply IH in H as (H1 & H2 & H3).
    apply Z.ltb_lt in Hp.
    assert (Hh : 1 <= Payment.ceil_div (now_us - t0 * 1000000) Payment.us_per_hour).
    { unfold Payment.ceil_div, Payment.us_per_hour.
      assert ((- (now_us - t0 * 1000000)) / 3600000000 < 0) by (apply Z.div_lt_upper_bound; lia).
      lia. }
    set (h := Payment.ceil_div (now_us - t0 * 1000000) Payment.us_per_hour) in *.
    unfold Payment.MINIMUM_CHARGE, Payment.HOURLY_RATE in *.
    rewrite Z.max_l in H2, H3 by lia.
    split; [lia|]. split; [lia|].
    replace (t' - t) with ((t' - (t + h * 500)) + h * 500) by lia.
    rewrite Z.add_mod, H3, Z.mod_mul by lia. reflexivity.
Qed.

Lemma calculate_charges_bounds (f : csv_file) (plate : string) (now_us : Z) :
  let '(total, sessions, _) := Payment.calculate_charges f plate now_us in
  0 <= sessions /\ Payment.MINIMUM_CHARGE * sessions <= total
  /\ total mod Payment.MINIMUM_CHARGE = 0.
Proof.
  unfold Payment.calculate_charges.
  destruct f as [| |its]; [repeat split; reflexivity || lia ..|].
  destruct (Payment.charge_loop plate now_us (0, 0, 0) its) as [[[t s] d]|] eqn:Hl;
    [|repeat split; reflexivity || lia].
  apply charge_loop_bounds in Hl as (H1 & H2 & H3).
  rewrite Z.sub_0_r in H3. lia.
Qed.

(** X1: the total returned by [calculate_charges] is a whole number of minimum charges, at least one per counted session, whatever the file holds. *)
Theorem X1_total_is_whole_minimum_charges (f : csv_file) (plate : string) (now_us : Z) :
  let '(total, sessions, _) := Payment.calculate_charges f plate now_us in
  0 <= sessions /\ Payment.MINIMUM_CHARGE * sessions <= total
  /\ total mod Payment.MINIMUM_CHARGE = 0.
Proof. apply calculate_charges_bounds. Qed.

Lemma charge_loop_filter (plate : string) (now_us : Z) (rows : list session_row) :
  forall acc, Payment.charge_loop plate now_us acc (map Row rows)
            = Payment.charge_loop plate now_us acc (map Row (List.filter (pending_of plate) rows)).
Proof.
  induction rows as [|r rows IH]; intros [[t s] d]; [reflexivity|].
  simpl. unfold pending_of.
  destruct (String.eqb (plate_number r) plate && String.eqb (payment_status r) "0") eqn:Hm.
  - simpl. rewrite Hm. destruct (timestamp r) as [t0| |]; [|apply IH|reflexivity].
    destruct (0 <? now_us - t0 * 1000000); apply IH.
  - apply IH.
Qed.

(** X2: [calculate_charges] on a readable table depends only on the Pending rows of the queried plate: dropping every other row changes nothing. *)
Theorem X2_charges_only_see_pending_rows_of_plate (plate : string) (now_us : Z)
  (rows : list session_row) :
  Payment.calculate_charges (rows_file rows) plate now_us
  = Payment.calculate_charges (rows_file (List.filter (pending_of plate) rows)) plate now_us.
Proof.
  unfold Payment.calculate_charges, rows_file.
  rewrite (charge_loop_filter plate now_us rows). reflexivity.
Qed.




Lemma flip_row_idem (plate : string) (r : session_row) :
  Payment.written_row (Payment.flip_row plate (Payment.written_row (Payment.flip_row plate r)))
  = Payment.written_row (Payment.flip_row plate r).
Proof.
  destruct r as [p st ts].
  unfold Payment.written_row, Payment.flip_row. simpl.
  destruct (String.eqb p plate && String.eqb st "0") eqn:Hm; simpl.
  - rewrite andb_false_r. simpl. destruct ts; reflexivity.
  - rewrite Hm. simpl. destruct ts; reflexivity.
Qed.

Lemma first_surplus_updated (plate : string) (rows : list session_row) :
  Payment.first_surplus (map (fun r => Payment.written_row (Payment.flip_row plate r)) rows)
  = Payment.first_surplus rows.
Proof.
  induction rows as [|r rows IH]; [reflexivity|]. simpl. rewrite IH.
  unfold Payment.flip_row.
  destruct (String.eqb (plate_number r) plate && String.eqb (payment_status r) "0");
    reflexivity.
Qed.

Lemma write_stop_updated (e : Payment.env) (plate : string) (rows : list session_row) :
  Payment.write_stop e (map (fun r => Payment.written_row (Payment.flip_row plate r)) rows)
  = Payment.write_stop e rows.
Proof. unfold Payment.write_stop. rewrite first_surplus_updated. reflexivity. Qed.

(** X4: without a write fault, [update_csv] is idempotent: running it again on the table it wrote succeeds and writes the same table. *)
Theorem X4_update_csv_idempotent (e : Payment.env) (f f' : csv_file) (plate : string) :
  Payment.write_fault e = None ->
  Payment.update_csv e f plate = (true, f') ->
  Payment.update_csv e f' plate = (true, f').
Proof.
  intros Hw H. unfold Payment.update_csv in H |- *.
  destruct f as [| |its]; try discriminate.
  destruct (all_rows its) as [rows|]; [|discriminate].
  destruct (Payment.write_stop e rows) as [k|] eqn:Hs; [discriminate|].
  injection H as <-. unfold rows_file at 1. rewrite all_rows_map.
  rewrite write_stop_updated, Hs.
  rewrite map_map. f_equal. f_equal. apply map_ext, flip_row_idem.
Qed.

Lemma X4_update_csv_idempotent_witness :
  Payment.update_csv (Payment.mk_env Payment.Works None) (rows_file (map (Payment.flip_row Examples.plate) Examples.two_sessions)) Examples.plate
  = (true, rows_file (map (Payment.flip_row Examples.plate) Examples.two_sessions)).
Proof.
  apply (X4_update_csv_idempotent (Payment.mk_env Payment.Works None) (rows_file Examples.two_sessions)); reflexivity.
Defined.

(** X5: whatever the console does, [process_payment] changes the Session file only by the write-back of [update_csv], and only when there are charged sessions and the balance covers their total; the answer may then be PAYMENT_SUCCESS, UPDATE_ERROR or PROCESSING_ERROR (a [print] raising after the write-back). *)
Theorem X5_session_file_changes_only_on_write_back (e : Payment.env) (f : csv_file)
  (plate : string) (balance now_us : Z) :
  let '(total, sessions, _) := Payment.calculate_charges f plate now_us in
  let f' := snd (Payment.process_payment e f plate balance now_us) in
  f' = f \/ (sessions <> 0 /\ total <= balance /\ f' = snd (Payment.update_csv e f plate)).
Proof.
  pose proof (process_payment_spec e f plate balance now_us) as Hp.
  destruct (Payment.calculate_charges f plate now_us) as [[total sessions] dur].
  destruct (Payment.process_payment e f plate balance now_us) as [[[status bal] d] f'].
  simpl. exact (proj2 Hp).
Qed.

(** X6: a PAYMENT_SUCCESS never overdraws: at least one session was charged, the new balance is non-negative, and it is at most the presented balance minus one minimum charge per session. *)
Theorem X6_success_never_overdraws (e : Payment.env) (f f' : csv_file) (plate : string)
  (balance now_us new_balance total sessions : Z) (dur dur' : Payment.duration) :
  Payment.process_payment e f plate balance now_us = (("PAYMENT_SUCCESS", new_balance, dur), f') ->
  Payment.calculate_charges f plate now_us = (total, sessions, dur') ->
  1 <= sessions /\ 0 <= new_balance
  /\ new_balance + Payment.MINIMUM_CHARGE * sessions <= balance.
Proof.
  intros Hp Hc.
  pose proof (calculate_charges_bounds f plate now_us) as Hb. rewrite Hc in Hb.
  destruct Hb as (Hs & Ht & _).
  pose proof (process_payment_spec e f plate balance now_us) as Hs'. rewrite Hc, Hp in Hs'.
  destruct Hs' as [[[Hn _] | (_ & Hb' & Hs0 & Hle)] _]; [congruence|]. lia.
Qed.

Lemma X6_success_never_overdraws_witness :
  1 <= 2 /\ 0 <= 500 /\ 500 + Payment.MINIMUM_CHARGE * 2 <= 2000.
Proof.
  apply (X6_success_never_overdraws (Payment.mk_env Payment.Works None) (rows_file Examples.two_sessions)
           (rows_file (map (Payment.flip_row Examples.plate) Examples.two_sessions)) Examples.plate
           2000 (Examples.us 90) 500 1500 2 (Payment.Dur 2 0) (Payment.Dur 2 0));
    vm_compute; reflexivity.
Defined.


Lemma split_char_no_sep (c : ascii) (s : string) :
  has_char c s = false -> split_char c s = [s].
Proof.
  induction s as [|x rest IH]; simpl; [reflexivity|].
  intros H. apply orb_false_iff in H as [Hx Hr]. rewrite Hx, IH by exact Hr. reflexivity.
Qed.

Lemma split_char_app (c : ascii) (a b : string) :
  has_char c a = false -> split_char c (a +++ String c b) = a :: split_char c b.
Proof.
  unfold sappend. induction a as [|x rest IH]; simpl.
  - rewrite Ascii.eqb_refl. reflexivity.
  - intros H. apply orb_false_iff in H as [Hx Hr]. rewrite Hx, IH by exact Hr. reflexivity.
Qed.

Lemma split_char_concat (c : ascii) (a : string) (more : list string) :
  Forall (fun x => has_char c x = false) (a :: more) ->
  split_char c (String.concat (String c EmptyString) (a :: more)) = a :: more.
Proof.
  revert a. induction more as [|b more IH]; intros a H; simpl.
  - apply split_char_no_sep. inversion H; assumption.
  - inversion H as [|? ? Ha Hr]; subst.
    change (split_char c (a +++ String c (String.concat (String c EmptyString) (b :: more))) = a :: b :: more).
    rewrite split_char_app by exact Ha. f_equal. apply IH, Hr.
Qed.

Lemma starts_with_app (pre s : string) : starts_with pre (pre +++ s) = true.
Proof.
  unfold starts_with, sappend. induction pre as [|c pre IH]; simpl.
  - destruct s; reflexivity.
  - destruct (ascii_dec c c); [exact IH | contradiction].
Qed.

Lemma handle_calculate_as_process (e : Payment.env) (f : csv_file)
  (payload stamp : string) (now_us : Z) :
  PaymentLoop.handle_line e f ("CALCULATE_PAYMENT:" +++ payload) stamp now_us
  = PaymentLoop.handle_line e f ("PROCESS_PAYMENT:" +++ payload) stamp now_us.
Proof.
  unfold PaymentLoop.handle_line.
  rewrite !starts_with_app.
  replace (starts_with "PROCESS_PAYMENT:" ("CALCULATE_PAYMENT:" +++ payload)) with false
    by reflexivity.
  replace (starts_with "CALCULATE_PAYMENT:" ("PROCESS_PAYMENT:" +++ payload)) with false
    by reflexivity.
  replace (str_drop 18 ("CALCULATE_PAYMENT:" +++ payload)) with payload by reflexivity.
  replace (str_drop 16 ("PROCESS_PAYMENT:" +++ payload)) with payload by reflexivity.
  reflexivity.
Qed.

Lemma handle_request (e : Payment.env) (f : csv_file) (pre payload stamp : string) (now_us : Z) :
  pre = "PROCESS_PAYMENT:" \/ pre = "CALCULATE_PAYMENT:" ->
  Payment.stdout_ok e = true ->
  PaymentLoop.handle_line e f (pre +++ payload) stamp now_us
  = match split_char "," payload with
    | d0 :: d1 :: _ =>
        match py_int d1 with
        | None => Some (PaymentLoop.mk_outcome (Some "ERROR:Invalid balance format") None f)
        | Some current_balance =>
            let '((status, new_balance, dur), f') :=
              Payment.process_payment e f (strip d0) current_balance now_us in
            Some (PaymentLoop.mk_outcome
                    (Some (PaymentLoop.response_of status current_balance new_balance dur))
                    (Some (PaymentLoop.log_entry stamp (strip d0) status current_balance
                             new_balance dur))
                    f')
        end
    | _ => Some (PaymentLoop.mk_outcome (Some "ERROR:Invalid data format") None f)
    end.
Proof.
  intros Hpre Hout.
  assert (H : PaymentLoop.handle_line e f (pre +++ payload) stamp now_us
              = PaymentLoop.handle_line e f ("PROCESS_PAYMENT:" +++ payload) stamp now_us)
    by (destruct Hpre as [-> | ->]; [reflexivity | apply handle_calculate_as_process]).
  rewrite H. unfold PaymentLoop.handle_line. rewrite (works_no_fault e _ Hout), starts_with_app.
  replace (starts_with "CALCULATE_PAYMENT:" ("PROCESS_PAYMENT:" +++ payload)) with false
    by reflexivity.
  replace (str_drop 16 ("PROCESS_PAYMENT:" +++ payload)) with payload by reflexivity.
  reflexivity.
Qed.

(** X7: a CALCULATE_PAYMENT request is handled exactly like the PROCESS_PAYMENT request with the same payload: it charges and writes back too. *)
Theorem X7_calculate_request_charges_like_process (e : Payment.env) (f : csv_file)
  (payload stamp : string) (now_us : Z) :
  PaymentLoop.handle_line e f ("CALCULATE_PAYMENT:" +++ payload) stamp now_us
  = PaymentLoop.handle_line e f ("PROCESS_PAYMENT:" +++ payload) stamp now_us.
Proof. apply handle_calculate_as_process. Qed.

(** X8: a request whose payload holds no comma is answered ERROR:Invalid data format, with no log line and the Session file unchanged. *)
Theorem X8_request_without_comma_rejected (e : Payment.env) (f : csv_file)
  (pre payload stamp : string) (now_us : Z) :
  pre = "PROCESS_PAYMENT:" \/ pre = "CALCULATE_PAYMENT:" ->
  Payment.stdout_ok e = true ->
  has_char "," payload = false ->
  PaymentLoop.handle_line e f (pre +++ payload) stamp now_us
  = Some (PaymentLoop.mk_outcome (Some "ERROR:Invalid data format") None f).
Proof.
  intros Hpre Hout Hc. rewrite handle_request by assumption.
  rewrite split_char_no_sep by exact Hc. reflexivity.
Qed.

Lemma X8_request_without_comma_rejected_witness :
  PaymentLoop.handle_line (Payment.mk_env Payment.Works None) (rows_file Examples.one_session)
    ("CALCULATE_PAYMENT:" +++ "RAD667J 1500") "2024-01-01 10:00:00" 0
  = Some (PaymentLoop.mk_outcome (Some "ERROR:Invalid data format") None
            (rows_file Examples.one_session)).
Proof.
  apply X8_request_without_comma_rejected; [right; reflexivity | reflexivity | reflexivity].
Defined.

(** X9: a request whose balance field [int()] rejects is answered ERROR:Invalid balance format, with no log line and the Session file unchanged. *)
Theorem X9_unparsable_balance_rejected (e : Payment.env) (f : csv_file)
  (pre plate balance_field : string) (more : list string) (stamp : string) (now_us : Z) :
  pre = "PROCESS_PAYMENT:" \/ pre = "CALCULATE_PAYMENT:" ->
  Payment.stdout_ok e = true ->
  Forall (fun x => has_char "," x = false) (plate :: balance_field :: more) ->
  py_int balance_field = None ->
  PaymentLoop.handle_line e f (pre +++ String.concat "," (plate :: balance_field :: more)) stamp now_us
  = Some (PaymentLoop.mk_outcome (Some "ERROR:Invalid balance format") None f).
Proof.
  intros Hpre Hout Hc Hb. rewrite handle_request by assumption.
  rewrite (split_char_concat "," plate (balance_field :: more) Hc), Hb. reflexivity.
Qed.

Lemma X9_unparsable_balance_rejected_witness :
  PaymentLoop.handle_line (Payment.mk_env Payment.Works None) (rows_file Examples.one_session)
    ("PROCESS_PAYMENT:" +++ String.concat "," ["RAD667J"; "15OO"]) "2024-01-01 10:00:00" 0
  = Some (PaymentLoop.mk_outcome (Some "ERROR:Invalid balance format") None
            (rows_file Examples.one_session)).
Proof.
  apply X9_unparsable_balance_rejected;
    [left; reflexivity | reflexivity | repeat constructor | reflexivity].
Defined.

Lemma has_char_app (c : ascii) (a b : string) :
  has_char c (a +++ b) = has_char c a || has_char c b.
Proof.
  unfold sappend. induction a as [|x a IH]; simpl; [reflexivity|].
  rewrite IH, orb_assoc. reflexivity.
Qed.

Lemma digit_char_nat (d : Z) : 0 <= d < 10 ->
  nat_of_ascii (digit_char d) = (48 + Z.to_nat d)%nat.
Proof.
  intros Hd. unfold digit_char. apply Ascii.nat_ascii_embedding. lia.
Qed.

Lemma is_digit_digit_char (d : Z) : 0 <= d < 10 -> is_digit (digit_char d) = true.
Proof.
  intros Hd. unfold is_digit. rewrite digit_char_nat by exact Hd.
  apply andb_true_iff. split; apply Nat.leb_le; lia.
Qed.

Lemma has_char_cons (c x : ascii) (s : string) :
  has_char c (String x s) = Ascii.eqb x c || has_char c s.
Proof. reflexivity. Qed.

Lemma digits_aux_no_char (c : ascii) : is_digit c = false ->
  forall fuel n acc, has_char c (digits_aux fuel n acc) = has_char c acc.
Proof.
  intros Hc. induction fuel as [|fuel IH]; intros n acc; [reflexivity|].
  assert (Hne : Ascii.eqb (digit_char (n mod 10)) c = false).
  { destruct (Ascii.eqb_spec (digit_char (n mod 10)) c) as [Heq|]; [|reflexivity].
    rewrite <- Heq, is_digit_digit_char in Hc; [discriminate|].
    apply Z.mod_pos_bound. lia. }
  change (digits_aux (S fuel) n acc) with
    (if n <? 10 then String (digit_char (n mod 10)) acc
     else digits_aux fuel (n / 10) (String (digit_char (n mod 10)) acc)).
  destruct (n <? 10); [|rewrite IH]; rewrite has_char_cons, Hne; reflexivity.
Qed.

Lemma z_to_str_no_char (c : ascii) (n : Z) :
  is_digit c = false -> c <> "-"%char -> has_char c (z_to_str n) = false.
Proof.
  intros Hd Hm. unfold z_to_str.
  assert (H : has_char c (digits_aux (S (Z.to_nat (Z.log2 (Z.abs n)))) (Z.abs n) EmptyString) = false)
    by (rewrite digits_aux_no_char by exact Hd; reflexivity).
  destruct (n <? 0); [|exact H].
  rewrite has_char_cons, H, orb_false_r.
  destruct (Ascii.eqb_spec "-" c); [congruence | reflexivity].
Qed.

Lemma z_to_str_no_comma (n : Z) : has_char "," (z_to_str n) = false.
Proof. apply z_to_str_no_char; [reflexivity | discriminate]. Qed.

Lemma z_to_str_no_colon (n : Z) : has_char ":" (z_to_str n) = false.
Proof. apply z_to_str_no_char; [reflexivity | discriminate]. Qed.

(** X10: when the parsed balance covers the owed total of at least one session and the write-back raises no error, the reply is PAYMENT_SUCCESS:<new balance>,<charged>,<duration>, the log line reports the charge, the same duration text and both balances, and the Session file becomes the table read with the plate's Pending rows flipped (a missing Timestamp written back empty). *)
Theorem X10_success_reply_reports_charge (e : Payment.env) (f : csv_file)
  (pre plate balance_field : string) (more : list string) (stamp : string)
  (now_us balance total sessions : Z) (dur : Payment.duration) :
  pre = "PROCESS_PAYMENT:" \/ pre = "CALCULATE_PAYMENT:" ->
  Payment.stdout_ok e = true -> fst (Payment.update_csv e f (strip plate)) = true ->
  Forall (fun x => has_char "," x = false) (plate :: balance_field :: more) ->
  py_int balance_field = Some balance ->
  Payment.calculate_charges f (strip plate) now_us = (total, sessions, dur) ->
  sessions <> 0 -> total <= balance ->
  exists rows d, f = rows_file rows
  /\ PaymentLoop.handle_line e f (pre +++ String.concat "," (plate :: balance_field :: more))
       stamp now_us
     = Some (PaymentLoop.mk_outcome
         (Some ("PAYMENT_SUCCESS:" +++ z_to_str (balance - total) +++ "," +++ z_to_str total
                +++ "," +++ d))
         (Some (stamp +++ " - " +++ strip plate +++ " - SUCCESS: Charged " +++ z_to_str total
                +++ " RWF for " +++ d +++ " parking, Balance: "
                +++ z_to_str balance +++ " → " +++ z_to_str (balance - total) +++ " RWF"))
         (rows_file (map (fun r => Payment.written_row (Payment.flip_row (strip plate) r)) rows))).
Proof.
  intros Hpre Hout Hw Hc Hb Hcalc Hs Hle.
  destruct (calculate_charges_sessions_rows _ _ _ _ _ _ Hcalc Hs) as [rows Hf].
  exists rows, (PaymentLoop.duration_text dur). split; [exact Hf|].
  rewrite handle_request by assumption.
  rewrite (split_char_concat "," plate (balance_field :: more) Hc), Hb.
  rewrite (process_payment_works e f (strip plate) balance now_us Hout), Hcalc. simpl.
  destruct (sessions =? 0) eqn:Hs0; [apply Z.eqb_eq in Hs0; contradiction|].
  destruct (balance <? total) eqn:Hlt; [apply Z.ltb_lt in Hlt; lia|].
  rewrite Hf in Hw |- *. unfold Payment.update_csv, rows_file in Hw |- *. rewrite all_rows_map in Hw |- *.
  destruct (Payment.write_stop e rows); [discriminate|].
  unfold PaymentLoop.response_of, PaymentLoop.log_entry. simpl.
  replace (balance - (balance - total)) with total by lia. reflexivity.
Qed.

(** X11: when a non-negative parsed balance is below the owed total, the reply is INSUFFICIENT_FUNDS:<owed>,<balance>, the log line gives the required and available amounts, and the Session file is unchanged. *)
Theorem X11_insufficient_reply_and_log (e : Payment.env) (f : csv_file)
  (pre plate balance_field : string) (more : list string) (stamp : string)
  (now_us balance total sessions : Z) (dur : Payment.duration) :
  pre = "PROCESS_PAYMENT:" \/ pre = "CALCULATE_PAYMENT:" ->
  Payment.stdout_ok e = true ->
  Forall (fun x => has_char "," x = false) (plate :: balance_field :: more) ->
  py_int balance_field = Some balance ->
  Payment.calculate_charges f (strip plate) now_us = (total, sessions, dur) ->
  0 <= balance -> balance < total ->
  PaymentLoop.handle_line e f (pre +++ String.concat "," (plate :: balance_field :: more))
    stamp now_us
  = Some (PaymentLoop.mk_outcome
      (Some ("INSUFFICIENT_FUNDS:" +++ z_to_str total +++ "," +++ z_to_str balance))
      (Some (stamp +++ " - " +++ strip plate +++ " - INSUFFICIENT_FUNDS: Required "
             +++ z_to_str total +++ " RWF, Available " +++ z_to_str balance +++ " RWF"))
      f).
Proof.
  intros Hpre Hout Hc Hb Hcalc H0 Hlt.
  rewrite handle_request by assumption.
  rewrite (split_char_concat "," plate (balance_field :: more) Hc), Hb.
  rewrite (process_payment_works e f (strip plate) balance now_us Hout), Hcalc. simpl.
  destruct (sessions =? 0) eqn:Hs0.
  { apply Z.eqb_eq in Hs0. subst sessions.
    apply calculate_charges_no_sessions in Hcalc. lia. }
  destruct (balance <? total) eqn:Hl; [|apply Z.ltb_ge in Hl; lia].
  set (x := z_to_str total +++ "," +++ z_to_str balance).
  unfold PaymentLoop.response_of, PaymentLoop.log_entry.
  replace (String.eqb ("INSUFFICIENT_FUNDS:" +++ x) "PAYMENT_SUCCESS") with false by reflexivity.
  rewrite starts_with_app.
  replace ("INSUFFICIENT_FUNDS:" +++ x) with ("INSUFFICIENT_FUNDS" +++ String ":" x)
    by reflexivity.
  rewrite split_char_app by reflexivity.
  rewrite (split_char_no_sep ":" x)
    by (unfold x; rewrite !has_char_app, !z_to_str_no_colon; reflexivity).
  unfold x. change ("," +++ z_to_str balance) with (String "," (z_to_str balance)).
  rewrite split_char_app by apply z_to_str_no_comma.
  reflexivity.
Qed.

Lemma parse_digits_digit (acc : Z) (nd : nat) (b : bool) (d : Z) (rest : string) :
  0 <= d < 10 ->
  parse_digits acc nd b (String (digit_char d) rest)
  = parse_digits (acc * 10 + d) (S nd) true rest.
Proof.
  intros Hd.
  change (parse_digits acc nd b (String (digit_char d) rest)) with
    (if is_digit (digit_char d)
     then parse_digits (acc * 10 + digit_value (digit_char d)) (S nd) true rest
     else if Ascii.eqb (digit_char d) "_" && b then parse_digits acc nd false rest else None).
  rewrite is_digit_digit_char by exact Hd.
  unfold digit_value. rewrite digit_char_nat by exact Hd.
  f_equal. lia.
Qed.

Lemma digits_aux_parse (fuel : nat) :
  forall n, 0 <= n < 10 ^ Z.of_nat (S fuel) ->
  forall acc nd b rest, exists k : nat,
    (1 <= k)%nat /\ (k = 1%nat \/ 10 ^ (Z.of_nat k - 1) <= n)
    /\ parse_digits acc nd b (digits_aux (S fuel) n rest)
       = parse_digits (acc * 10 ^ Z.of_nat k + n) (nd + k) true rest.
Proof.
  induction fuel as [|fuel IH]; intros n Hn acc nd b rest;
    change (digits_aux (S ?f) n rest) with
      (if n <? 10 then String (digit_char (n mod 10)) rest
       else digits_aux f (n / 10) (String (digit_char (n mod 10)) rest)).
  - assert (Hlt : (n <? 10) = true) by (apply Z.ltb_lt; simpl in Hn; lia).
    rewrite Hlt. exists 1%nat. split; [lia|]. split; [left; reflexivity|].
    rewrite parse_digits_digit by (apply Z.mod_pos_bound; lia).
    rewrite Z.mod_small by lia. f_equal; simpl; lia.
  - destruct (n <? 10) eqn:Hlt.
    + apply Z.ltb_lt in Hlt. exists 1%nat. split; [lia|]. split; [left; reflexivity|].
      rewrite parse_digits_digit by (apply Z.mod_pos_bound; lia).
      rewrite Z.mod_small by lia. f_equal; simpl; lia.
    + apply Z.ltb_ge in Hlt.
      assert (Hq : 0 <= n / 10 < 10 ^ Z.of_nat (S fuel)).
      { split; [apply Z.div_pos; lia|].
        apply Z.div_lt_upper_bound; [lia|].
        rewrite <- Z.pow_succ_r by lia. rewrite <- Nat2Z.inj_succ. lia. }
      destruct (IH (n / 10) Hq acc nd b (String (digit_char (n mod 10)) rest))
        as (k & Hk1 & Hk2 & Hk).
      exists (S k). split; [lia|]. split.
      * right. rewrite Nat2Z.inj_succ.
        replace (Z.succ (Z.of_nat k) - 1) with (Z.succ (Z.of_nat k - 1)) by lia.
        rewrite Z.pow_succ_r by lia.
        destruct Hk2 as [-> | Hk2]; [simpl; lia|].
        pose proof (Z.mul_div_le n 10). lia.
      * rewrite Hk, parse_digits_digit by (apply Z.mod_pos_bound; lia).
        f_equal; [|lia].
        rewrite Nat2Z.inj_succ, Z.pow_succ_r by lia.
        pose proof (Z.div_mod n 10). lia.
Qed.

Lemma is_space_not_digit (c : ascii) : is_space c = true -> is_digit c = false.
Proof.
  unfold is_space, is_digit. intros H.
  apply orb_true_iff in H as [H|H]; apply andb_true_iff in H as [H1 H2];
    apply Nat.leb_le in H1, H2;
    apply andb_false_iff; [left|left]; apply Nat.leb_gt; lia.
Qed.

Lemma strip_no_space (s : string) :
  (forall c, is_space c = true -> has_char c s = false) -> strip s = s.
Proof.
  intros H. unfold strip.
  assert (Hl : lstrip s = s).
  { destruct s as [|x r]; [reflexivity|]. simpl.
    destruct (is_space x) eqn:Hx; [|reflexivity].
    specialize (H x Hx). rewrite has_char_cons, Ascii.eqb_refl in H. discriminate. }
  rewrite Hl. clear Hl. induction s as [|x r IH]; [reflexivity|].
  assert (Hr : forall c, is_space c = true -> has_char c r = false).
  { intros c Hc. specialize (H c Hc). rewrite has_char_cons in H.
    apply orb_false_iff in H as [_ H]. exact H. }
  simpl. rewrite (IH Hr).
  destruct r as [|y r']; [|reflexivity].
  destruct (is_space x) eqn:Hx; [|reflexivity].
  specialize (H x Hx). rewrite has_char_cons, Ascii.eqb_refl in H. discriminate.
Qed.

Lemma z_to_str_fuel (m : Z) : 0 <= m ->
  m < 10 ^ Z.of_nat (S (Z.to_nat (Z.log2 m))).
Proof.
  intros Hm. rewrite Nat2Z.inj_succ, Z2Nat.id by apply Z.log2_nonneg.
  destruct (Z.eq_dec m 0) as [->|Hm0]; [simpl; lia|].
  destruct (Z.log2_spec m) as [_ H2]; [lia|].
  eapply Z.lt_le_trans; [exact H2|].
  apply Z.pow_le_mono_l. split; [lia|lia].
Qed.

Lemma parse_digits_nonempty_digit (acc : Z) (nd : nat) (c : ascii) (rest : string) (r : Z * nat) :
  parse_digits acc nd false (String c rest) = Some r -> is_digit c = true.
Proof.
  simpl. destruct (is_digit c); [reflexivity|]. rewrite andb_false_r. discriminate.
Qed.

(** X12: [int()] reads back every integer the f-string rendering writes, below CPython's 4300-digit limit. *)
Theorem X12_int_parses_rendered_numbers (n : Z) :
  Z.abs n < 10 ^ Z.of_nat int_max_str_digits ->
  py_int (z_to_str n) = Some n.
Proof.
  intros Hbig.
  assert (Hsp : forall c, is_space c = true -> has_char c (z_to_str n) = false).
  { intros c Hc. apply z_to_str_no_char; [apply is_space_not_digit, Hc|].
    intros ->. discriminate. }
  unfold py_int. rewrite (strip_no_space _ Hsp).
  set (m := Z.abs n).
  destruct (digits_aux_parse (Z.to_nat (Z.log2 m)) m
              (conj (Z.abs_nonneg n) (z_to_str_fuel m (Z.abs_nonneg n))) 0 0 false EmptyString)
    as (k & Hk1 & Hk2 & Hk).
  assert (Hkmax : (k <= int_max_str_digits)%nat).
  { destruct Hk2 as [-> | Hk2]; [unfold int_max_str_digits; lia|].
    destruct (Nat.le_gt_cases k int_max_str_digits) as [|Hgt]; [assumption|].
    exfalso. assert (10 ^ Z.of_nat int_max_str_digits <= 10 ^ (Z.of_nat k - 1)).
    { apply Z.pow_le_mono_r; [lia|]. lia. }
    lia. }
  assert (Hbody : parse_digits 0 0 false (digits_aux (S (Z.to_nat (Z.log2 m))) m EmptyString)
                  = Some (m, k)).
  { rewrite Hk. simpl. repeat f_equal; lia. }
  assert (Hlim : (int_max_str_digits <? k)%nat = false) by (apply Nat.ltb_ge; exact Hkmax).
  unfold z_to_str. fold m.
  destruct (n <? 0) eqn:Hneg.
  - rewrite Ascii.eqb_refl. rewrite Hbody, Hlim. simpl.
    apply Z.ltb_lt in Hneg. f_equal. unfold m. lia.
  - apply Z.ltb_ge in Hneg.
    destruct (digits_aux (S (Z.to_nat (Z.log2 m))) m EmptyString) as [|c rest] eqn:Hd;
      [discriminate|].
    pose proof (parse_digits_nonempty_digit _ _ _ _ _ Hbody) as Hc.
    assert (Hm : Ascii.eqb c "-" = false)
      by (destruct (Ascii.eqb_spec c "-") as [->|]; [discriminate|reflexivity]).
    assert (Hp : Ascii.eqb c "+" = false)
      by (destruct (Ascii.eqb_spec c "+") as [->|]; [discriminate|reflexivity]).
    rewrite Hm, Hp, Hbody, Hlim. f_equal. unfold m. lia.
Qed.


Local Ltac eqb_facts :=
  repeat match goal with
  | H : ?x <> ?y |- _ =>
      let H1 := fresh "E" in let H2 := fresh "E" in
      assert (H1 : String.eqb x y = false) by (apply String.eqb_neq; exact H);
      assert (H2 : String.eqb y x = false) by (apply String.eqb_neq; congruence);
      clear H
  end.

(** X13: the majority vote over a full buffer of three reads returns a plate read at least twice, or the first read when all three differ. *)
Theorem X13_majority_of_three_reads (a b c : string) :
  Camera.most_common [a; b; c]
  = Some (if String.eqb a b || String.eqb a c then a else if String.eqb b c then b else a).
Proof.
  destruct (String.eqb_spec a b); destruct (String.eqb_spec a c); destruct (String.eqb_spec b c);
    subst; try congruence; eqb_facts;
    unfold Camera.most_common, Camera.counter_keys, Camera.count_of;
    repeat (cbn; rewrite ?String.eqb_refl;
            repeat match goal with
                   | H : String.eqb ?x ?y = false |- context [String.eqb ?x ?y] => rewrite H
                   end);
    reflexivity.
Qed.

Lemma substring_prefix (n : nat) (s : string) :
  exists post, s = String.substring 0 n s +++ post.
Proof.
  revert s. induction n as [|n IH]; intros s.
  - exists s. destruct s; reflexivity.
  - destruct s as [|c r]; [exists EmptyString; reflexivity|].
    destruct (IH r) as [post Hp]. exists post. exact (f_equal (String c) Hp).
Qed.

Lemma plate_search_sound (s p : string) :
  Camera.plate_pattern_search s = Some p ->
  Camera.plate_shape p = true /\ exists pre post, s = pre +++ p +++ post.
Proof.
  - revert p. induction s as [|c r IH]; intros p H; [discriminate|].
    change (Camera.plate_pattern_search (String c r)) with
      (if Camera.plate_shape (String.substring 0 7 (String c r))
       then Some (String.substring 0 7 (String c r)) else Camera.plate_pattern_search r) in H.
    destruct (Camera.plate_shape (String.substring 0 7 (String c r))) eqn:Hs.
    + injection H as <-. split; [exact Hs|].
      destruct (substring_prefix 7 (String c r)) as [post Hpost].
      exists EmptyString, post. exact Hpost.
    + destruct (IH p H) as [Hp (pre & post & ->)]. split; [exact Hp|].
      exists (String c pre), post. reflexivity.
Qed.

(** X14: the plate regex returns only a seven-character plate-shaped substring of the text, and a text that is itself a plate is found whole. *)
Theorem X14_plate_search_finds_plate_text (s p : string) :
  (Camera.plate_pattern_search s = Some p ->
   Camera.plate_shape p = true /\ exists pre post, s = pre +++ p +++ post)
  /\ (Camera.plate_shape s = true -> Camera.plate_pattern_search s = Some s).
Proof.
  split; [apply plate_search_sound|].
  - intros Hs.
    destruct s as [|a [|b [|c [|d [|e [|f [|g [|h t]]]]]]]]; try discriminate.
    simpl. simpl in Hs. rewrite Hs. reflexivity.
Qed.

Lemma X14_plate_search_finds_plate_text_witness :
  (Camera.plate_pattern_search "XRAD667JX" = Some "RAD667J" ->
   Camera.plate_shape "RAD667J" = true
   /\ exists pre post, "XRAD667JX" = pre +++ "RAD667J" +++ post)
  /\ (Camera.plate_shape "XRAD667JX" = true ->
      Camera.plate_pattern_search "XRAD667JX" = Some "XRAD667JX").
Proof. exact (X14_plate_search_finds_plate_text "XRAD667JX" "RAD667J"). Defined.

Lemma counter_keys_in (l : list string) (y : string) :
  In y (Camera.counter_keys l) -> In y l.
Proof.
  unfold Camera.counter_keys.
  assert (H : forall l0 acc, (forall z, In z acc -> In z l) -> (forall z, In z l0 -> In z l) ->
            forall z, In z (fold_left (fun ks x => if existsb (String.eqb x) ks then ks else ks ++ [x])
                                 l0 acc) -> In z l).
  { induction l0 as [|x l0 IH]; intros acc Hacc Hl0 z; simpl; [apply Hacc|].
    apply IH; [|intros z' Hz'; apply Hl0; right; exact Hz'].
    intros z' Hz'. destruct (existsb (String.eqb x) acc); [apply Hacc, Hz'|].
    apply in_app_or in Hz' as [Hz'|[<-|[]]]; [apply Hacc, Hz'|apply Hl0; left; reflexivity]. }
  apply (H l []); [intros z []|intros z Hz; exact Hz].
Qed.

Lemma fold_best_in (l : list string) (ks : list string) (k : string) :
  In (fold_left (fun best x => if (Camera.count_of best l <? Camera.count_of x l)%nat then x else best)
        ks k) (k :: ks).
Proof.
  revert k. induction ks as [|x ks IH]; intros k; simpl; [left; reflexivity|].
  destruct (Camera.count_of k l <? Camera.count_of x l)%nat.
  - right. apply IH.
  - destruct (IH k) as [H|H]; [left; exact H | right; right; exact H].
Qed.

Lemma most_common_in (l : list string) (x : string) :
  Camera.most_common l = Some x -> In x l.
Proof.
  unfold Camera.most_common. destruct (Camera.counter_keys l) as [|k ks] eqn:Hk; [discriminate|].
  intros H. injection H as <-. apply counter_keys_in. rewrite Hk. apply fold_best_in.
Qed.

Lemma most_common_nonempty (x : string) (l : list string) :
  Camera.most_common (x :: l) <> None.
Proof.
  unfold Camera.most_common, Camera.counter_keys. simpl.
  assert (H : forall l0 acc, acc <> [] ->
            fold_left (fun ks y => if existsb (String.eqb y) ks then ks else ks ++ [y]) l0 acc <> []).
  { induction l0 as [|y l0 IH]; intros acc Hacc; simpl; [exact Hacc|].
    apply IH. destruct (existsb (String.eqb y) acc); [exact Hacc|].
    destruct acc; simpl; discriminate. }
  destruct (fold_left _ l [x]) as [|k ks] eqn:Hf; [|discriminate].
  exfalso. revert Hf. apply H. discriminate.
Qed.

Lemma deque_append_spec (n : nat) (l : list string) (x : string) :
  (length (Camera.deque_append n l x) <= n)%nat
  /\ forall q, In q (Camera.deque_append n l x) -> In q l \/ q = x.
Proof.
  unfold Camera.deque_append. split.
  - rewrite length_skipn. lia.
  - intros q Hq.
    assert (Hin : In q (l ++ [x])).
    { rewrite <- (firstn_skipn (length (l ++ [x]) - n) (l ++ [x])). apply in_or_app. right. exact Hq. }
    apply in_app_or in Hin as [H|[H|[]]]; [left; exact H | right; congruence].
Qed.

Lemma detect_spec (cd : Z) (w : Camera.watcher) (p : string) (now : Z) :
  let '(w', d) := Camera.detect cd w p now in
  (length (Camera.plate_buffer w') < 3)%nat
  /\ (forall q, In q (Camera.plate_buffer w') -> In q (Camera.plate_buffer w) \/ q = p)
  /\ match d with
     | None => Camera.last_plate w' = Camera.last_plate w /\ Camera.last_time w' = Camera.last_time w
     | Some mc => (In mc (Camera.plate_buffer w) \/ mc = p)
                  /\ Camera.cooldown_passes cd w mc now = true
                  /\ w' = Camera.mk_watcher [] (Some mc) now
     end.
Proof.
  unfold Camera.detect.
  destruct (deque_append_spec Camera.BUFFER_SIZE (Camera.plate_buffer w) p) as [Hlen Hin].
  set (buf := Camera.deque_append Camera.BUFFER_SIZE (Camera.plate_buffer w) p) in *.
  unfold Camera.BUFFER_SIZE in *.
  destruct (Nat.eqb_spec (length buf) 3) as [H3|H3].
  - destruct (Camera.most_common buf) as [mc|] eqn:Hmc.
    + destruct (Camera.cooldown_passes cd w mc now) eqn:Hcd; simpl.
      * split; [lia|]. split; [intros q []|]. split; [|split; [exact Hcd|reflexivity]].
        apply Hin, most_common_in, Hmc.
      * split; [lia|]. split; [intros q []|]. split; reflexivity.
    + exfalso. destruct buf as [|x l]; [discriminate|].
      apply (most_common_nonempty x l). exact Hmc.
  - simpl. split; [lia|]. split; [exact Hin|]. split; reflexivity.
Qed.


Lemma entry_on_text_invariant (arduino : bool) (text : string) (now_us : Z) (st : Camera.entry_state) :
  entry_invariant arduino st -> entry_invariant arduino (Camera.entry_on_text arduino text now_us st).
Proof.
  intros (Hlen & Hbuf & Hrows & Hgate). unfold Camera.entry_on_text.
  destruct (Camera.plate_pattern_search (Camera.ocr_clean text)) as [p|] eqn:Hs;
    [|split; [exact Hlen|split; [exact Hbuf|split; [exact Hrows|exact Hgate]]]].
  destruct (plate_search_sound _ _ Hs) as [Hp _].
  unfold Camera.entry_on_plate.
  pose proof (detect_spec Camera.entry_cooldown (Camera.entry_watch st) p now_us) as Hd.
  destruct (Camera.detect Camera.entry_cooldown (Camera.entry_watch st) p now_us) as [w' [mc|]].
  - destruct Hd as (Hl' & Hb' & Hmc & _ & _).
    rewrite List.Forall_forall in Hbuf.
    assert (Hmcs : Camera.plate_shape mc = true) by (destruct Hmc as [H| ->]; [apply Hbuf, H|exact Hp]).
    split; [exact Hl'|]. split.
    + apply List.Forall_forall. intros q Hq. destruct (Hb' q Hq) as [H| ->]; [apply Hbuf, H|exact Hp].
    + split.
      * apply Forall_app. split; [exact Hrows|]. repeat constructor. exact Hmcs.
      * destruct Hgate as (times & Htimes & Hg). exists (times ++ [now_us]). split.
        -- simpl. apply Forall2_app; [exact Htimes|]. repeat constructor.
        -- simpl. rewrite Hg. unfold gate_events.
           destruct arduino; [|reflexivity].
           rewrite flat_map_app. simpl. reflexivity.
  - destruct Hd as (Hl' & Hb' & _).
    rewrite List.Forall_forall in Hbuf.
    split; [exact Hl'|]. split.
    + apply List.Forall_forall. intros q Hq. destruct (Hb' q Hq) as [H| ->]; [apply Hbuf, H|exact Hp].
    + split; [exact Hrows|exact Hgate].
Qed.

(** X15: from a fresh start, the entry loop keeps fewer than three reads in its buffer, appends only Pending rows of plate-shaped numbers, and with an Arduino opens the gate once per appended row: a '1' at the time the row is logged and a '0' 15 s later (without one it writes nothing). *)
Theorem X15_entry_rows_always_pending (arduino : bool) (reads : list (string * Z)) :
  let st := Camera.entry_run arduino reads Camera.init_entry in
  (length (Camera.plate_buffer (Camera.entry_watch st)) < 3)%nat
  /\ Forall (fun r => payment_status r = "0" /\ Camera.plate_shape (plate_number r) = true)
       (Camera.appended st)
  /\ exists times : list Z,
       Forall2 (fun r now_us => timestamp r = TsOk (now_us / 1000000)) (Camera.appended st) times
       /\ Camera.entry_gate st = gate_events arduino times.
Proof.
  assert (H : forall st, entry_invariant arduino st ->
            entry_invariant arduino (Camera.entry_run arduino reads st)).
  { induction reads as [|[text now_us] reads IH]; intros st Hst; [exact Hst|].
    apply IH, entry_on_text_invariant, Hst. }
  destruct (H Camera.init_entry) as (H1 & _ & H3 & H4).
  - split; [simpl; lia|]. split; [constructor|]. split; [constructor|].
    exists []. split; [constructor|]. destruct arduino; reflexivity.
  - split; [exact H1|]. split; [exact H3|exact H4].
Qed.

Lemma entry_run_appends (arduino : bool) (reads : list (string * Z)) :
  forall st, exists more, Camera.appended (Camera.entry_run arduino reads st) = Camera.appended st ++ more.
Proof.
  induction reads as [|[text now_us] reads IH]; intros st.
  - exists []. rewrite app_nil_r. reflexivity.
  - simpl. destruct (IH (Camera.entry_on_text arduino text now_us st)) as [more Hm].
    change (fold_left _ reads (Camera.entry_on_text arduino text now_us st))
      with (Camera.entry_run arduino reads (Camera.entry_on_text arduino text now_us st)).
    rewrite Hm. unfold Camera.entry_on_text, Camera.entry_on_plate.
    destruct (Camera.plate_pattern_search (Camera.ocr_clean text)) as [p|];
      [|exists more; reflexivity].
    destruct (Camera.detect Camera.entry_cooldown (Camera.entry_watch st) p now_us) as [w' [mc|]];
      simpl.
    + exists (mk_row mc "0" (TsOk (now_us / 1000000)) :: more). rewrite <- app_assoc. reflexivity.
    + exists more. reflexivity.
Qed.

(** X16: while the entry cooldown of 300 s since the last logged plate has not passed, the entry loop never appends another row for that plate. *)
Theorem X16_entry_cooldown_blocks_same_plate (arduino : bool) (p : string)
  (st : Camera.entry_state) (reads : list (string * Z)) (r : session_row) (rest : list session_row) :
  Camera.last_plate (Camera.entry_watch st) = Some p ->
  Forall (fun read => snd read - Camera.last_time (Camera.entry_watch st) <= Camera.entry_cooldown)
    reads ->
  Camera.appended (Camera.entry_run arduino reads st) = Camera.appended st ++ r :: rest ->
  plate_number r <> p.
Proof.
  revert st. induction reads as [|[text now_us] reads IH]; intros st Hlast Hcool Happ.
  - simpl in Happ. exfalso.
    apply (f_equal (@length session_row)) in Happ. rewrite length_app in Happ. simpl in Happ. lia.
  - inversion Hcool as [|? ? Hnow Hrest]; subst. simpl in Hnow.
    simpl in Happ.
    change (fold_left _ reads (Camera.entry_on_text arduino text now_us st))
      with (Camera.entry_run arduino reads (Camera.entry_on_text arduino text now_us st)) in Happ.
    unfold Camera.entry_on_text in Happ.
    destruct (Camera.plate_pattern_search (Camera.ocr_clean text)) as [q|] eqn:Hs;
      [|exact (IH st Hlast Hrest Happ)].
    unfold Camera.entry_on_plate in Happ.
    pose proof (detect_spec Camera.entry_cooldown (Camera.entry_watch st) q now_us) as Hd.
    destruct (Camera.detect Camera.entry_cooldown (Camera.entry_watch st) q now_us) as [w' [mc|]].
    + destruct Hd as (_ & _ & _ & Hcd & _).
      unfold Camera.cooldown_passes in Hcd. rewrite Hlast in Hcd.
      assert (Hne : mc <> p).
      { intros ->. rewrite String.eqb_refl in Hcd. simpl in Hcd.
        apply Z.ltb_lt in Hcd. lia. }
      destruct (entry_run_appends arduino reads
                  (Camera.mk_entry w' (Camera.appended st ++ [mk_row mc "0" (TsOk (now_us / 1000000))])
                     (Camera.entry_gate st ++ (if arduino then [(now_us, "1"); (now_us + 15000000, "0")] else []))))
        as [more Hm].
      rewrite Hm in Happ. simpl in Happ. rewrite <- app_assoc in Happ.
      apply app_inv_head in Happ. simpl in Happ. injection Happ as <- _. exact Hne.
    + destruct Hd as (_ & _ & Hl & Ht).
      apply (IH (Camera.mk_entry w' (Camera.appended st) (Camera.entry_gate st))); simpl.
      * rewrite Hl. exact Hlast.
      * rewrite Ht. exact Hrest.
      * exact Happ.
Qed.

(** X17: within the exit cooldown of 60 s since the last decision for a plate, reads of that plate (or of no plate) never trigger another exit evaluation and leave the watcher's last plate and time as they were. *)
Theorem X17_exit_cooldown_ignores_same_plate (arduino : bool) (f : csv_file) (p : string)
  (w : Camera.watcher) (s : Exit.state) (reads : list (string * Z)) :
  Camera.last_plate w = Some p ->
  Forall (fun q => q = p) (Camera.plate_buffer w) ->
  Forall (fun read =>
            (Camera.plate_pattern_search (Camera.ocr_clean (fst read)) = None
             \/ Camera.plate_pattern_search (Camera.ocr_clean (fst read)) = Some p)
            /\ snd read - Camera.last_time w <= Camera.exit_cooldown) reads ->
  let st := Camera.exit_run arduino f reads (w, s) in
  snd st = s /\ Camera.last_plate (fst st) = Some p /\ Camera.last_time (fst st) = Camera.last_time w.
Proof.
  intros Hlast Hbuf Hreads.
  assert (Hgen : forall w0, Camera.last_plate w0 = Some p ->
            Camera.last_time w0 = Camera.last_time w ->
            Forall (fun q => q = p) (Camera.plate_buffer w0) ->
            let st := Camera.exit_run arduino f reads (w0, s) in
            snd st = s /\ Camera.last_plate (fst st) = Some p
            /\ Camera.last_time (fst st) = Camera.last_time w).
  { induction reads as [|[text now_us] reads IH]; intros w0 Hl0 Ht0 Hb0; [simpl; auto|].
    inversion Hreads as [|? ? [Hsearch Hnow] Hrest]; subst. simpl in Hsearch, Hnow.
    specialize (IH Hrest). simpl.
    change (fold_left _ reads (Camera.exit_on_text arduino f text now_us (w0, s)))
      with (Camera.exit_run arduino f reads (Camera.exit_on_text arduino f text now_us (w0, s))).
    unfold Camera.exit_on_text.
    destruct Hsearch as [Hn|Hp].
    { rewrite Hn. apply IH; assumption. }
    rewrite Hp. cbn [fst snd].
    pose proof (detect_spec Camera.exit_cooldown w0 p now_us) as Hd.
    destruct (Camera.detect Camera.exit_cooldown w0 p now_us) as [w' [mc|]]; simpl.
    - exfalso. destruct Hd as (_ & _ & Hmc & Hcd & _).
      assert (mc = p) as ->.
      { destruct Hmc as [H|H]; [|exact H]. rewrite List.Forall_forall in Hb0. apply Hb0, H. }
      unfold Camera.cooldown_passes in Hcd. rewrite Hl0, String.eqb_refl in Hcd. simpl in Hcd.
      apply Z.ltb_lt in Hcd. lia.
    - destruct Hd as (_ & Hb' & Hl & Ht). apply IH.
      + rewrite Hl. exact Hl0.
      + rewrite Ht. exact Ht0.
      + apply List.Forall_forall. intros q Hq. destruct (Hb' q Hq) as [H|H]; [|exact H].
        rewrite List.Forall_forall in Hb0. apply Hb0, H. }
  apply Hgen; [exact Hlast | reflexivity | exact Hbuf].
Qed.


Lemma log_exit_spec (f : csv_file) (plate ty : string) (now_s : Z) (s : Exit.state) :
  let s' := Exit.log_exit_to_csv f plate ty now_s s in
  (exists its r t,
     f = Present its /\ Exit.first_row plate its = Some (Some r) /\ timestamp r = TsOk t
     /\ Exit.exit_log s' = Exit.exit_log s ++
          [Exit.mk_exit plate t now_s
             (if String.eqb ty "AUTHORIZED" then Z.max 500 (Z.quot ((now_s - t) * 500) 3600) else 0)
             ty (if String.eqb ty "AUTHORIZED" then "CLEARED" else "FLAGGED")])
  \/ (Exit.exit_log s' = Exit.exit_log s
      /\ ~ exists its r t, f = Present its /\ Exit.first_row plate its = Some (Some r)
                           /\ timestamp r = TsOk t).
Proof.
  unfold Exit.log_exit_to_csv.
  destruct f as [| |its];
    [right; split; [reflexivity|intros (? & ? & ? & H & _); discriminate H]..|].
  destruct (Exit.first_row plate its) as [[r|]|] eqn:Hf.
  - destruct (timestamp r) as [t| |] eqn:Ht.
    + left. exists its, r, t. repeat split; try assumption.
    + right. split; [reflexivity|]. intros (its' & r' & t' & Hi & Hf' & Ht').
      injection Hi as <-. rewrite Hf in Hf'. injection Hf' as <-. congruence.
    + right. split; [reflexivity|]. intros (its' & r' & t' & Hi & Hf' & Ht').
      injection Hi as <-. rewrite Hf in Hf'. injection Hf' as <-. congruence.
  - right. split; [reflexivity|]. intros (its' & r' & t' & Hi & Hf' & _).
    injection Hi as <-. congruence.
  - right. split; [reflexivity|]. intros (its' & r' & t' & Hi & Hf' & _).
    injection Hi as <-. congruence.
Qed.

Lemma exit_alarm_keeps_log (plate : string) (now_s : Z) (s : Exit.state) :
  Exit.exit_log (Exit.trigger_unauthorized_exit_alarm plate now_s s) = Exit.exit_log s.
Proof.
  unfold Exit.trigger_unauthorized_exit_alarm.
  destruct (Exit.classify _) as [[a b] c].
  destruct (Exit.MAX_UNAUTHORIZED_ATTEMPTS <=? _); reflexivity.
Qed.

(** Rows before the first row of a plate. *)
Definition other_plates (plate : string) (rows : list session_row) : Prop :=
  Forall (fun q => plate_number q <> plate) rows.

Lemma first_row_rows (plate : string) (rows : list session_row) :
  (exists pre r post, rows = pre ++ r :: post /\ other_plates plate pre
     /\ plate_number r = plate /\ Exit.first_row plate (map Row rows) = Some (Some r))
  \/ (other_plates plate rows /\ Exit.first_row plate (map Row rows) = Some None).
Proof.
  unfold other_plates.
  induction rows as [|q rows IH]; simpl; [right; split; [constructor|reflexivity]|].
  destruct (String.eqb_spec (plate_number q) plate) as [Hq|Hq].
  - left. exists [], q, rows. repeat split; [constructor|exact Hq].
  - destruct IH as [(pre & r & post & -> & Hpre & Hr & Hf)|(Hall & Hf)].
    + left. exists (q :: pre), r, post. repeat split; [constructor; assumption|exact Hr|exact Hf].
    + right. split; [constructor; assumption|exact Hf].
Qed.

Lemma first_split_unique (plate : string) (pre1 pre2 post1 post2 : list session_row)
  (r1 r2 : session_row) :
  pre1 ++ r1 :: post1 = pre2 ++ r2 :: post2 ->
  other_plates plate pre1 -> plate_number r1 = plate ->
  other_plates plate pre2 -> plate_number r2 = plate ->
  r1 = r2.
Proof.
  unfold other_plates. revert pre2.
  induction pre1 as [|a pre1 IH]; intros [|b pre2] Heq H1 Hr1 H2 Hr2; simpl in Heq.
  - injection Heq as <- _. reflexivity.
  - injection Heq as <- _. inversion H2. contradiction.
  - injection Heq as <- _. inversion H1. contradiction.
  - injection Heq as _ Heq. inversion H1; inversion H2. eapply IH; eassumption.
Qed.

(** X18: an exit evaluation appends at most one exit record; a record has the plate and the current exit time and is AUTHORIZED, CLEARED, with at least 500 RWF when the payment check passes, UNAUTHORIZED, FLAGGED, with 0 RWF otherwise.  On a Session table read without error, a record is appended exactly when the plate's first row has a parseable timestamp, which becomes its entry time. *)
Theorem X18_exit_record_follows_decision (m : Exit.mode) (ard : bool) (f : csv_file)
  (plate : string) (now_s : Z) (s : Exit.state) :
  let s' := Exit.exit_evaluation m ard f plate now_s s in
  (Exit.exit_log s' = Exit.exit_log s
   \/ exists x,
        Exit.exit_log s' = Exit.exit_log s ++ [x]
        /\ Exit.ex_plate x = plate /\ Exit.ex_exit x = now_s
        /\ (if Exit.is_payment_complete f plate
            then Exit.ex_type x = "AUTHORIZED" /\ Exit.ex_security x = "CLEARED"
                 /\ 500 <= Exit.ex_amount x
            else Exit.ex_type x = "UNAUTHORIZED" /\ Exit.ex_security x = "FLAGGED"
                 /\ Exit.ex_amount x = 0))
  /\ (forall rows, f = rows_file rows ->
       (forall pre r post, rows = pre ++ r :: post -> other_plates plate pre ->
          plate_number r = plate ->
          match timestamp r with
          | TsOk t => exists x, Exit.exit_log s' = Exit.exit_log s ++ [x] /\ Exit.ex_entry x = t
          | _ => Exit.exit_log s' = Exit.exit_log s
          end)
       /\ (other_plates plate rows -> Exit.exit_log s' = Exit.exit_log s)).
Proof.
  intros s'.
  assert (Hspec : exists ty s0,
            Exit.exit_log s0 = Exit.exit_log s /\ s' = Exit.log_exit_to_csv f plate ty now_s s0
            /\ ty = (if Exit.is_payment_complete f plate then "AUTHORIZED" else "UNAUTHORIZED")).
  { unfold s', Exit.exit_evaluation.
    destruct (Exit.is_payment_complete f plate).
    - eexists _, _. split; [|split; reflexivity].
      destruct ard; reflexivity.
    - eexists _, _. split; [|split; reflexivity].
      destruct ard; [apply exit_alarm_keeps_log|destruct m; reflexivity]. }
  destruct Hspec as (ty & s0 & H0 & Hs' & Hty).
  pose proof (log_exit_spec f plate ty now_s s0) as Hl. rewrite <- Hs' in Hl.
  split.
  - destruct Hl as [(its & r & t & Hi & Hf & Ht & Hl)|[Hl _]]; [right|left; congruence].
    eexists. rewrite Hl, H0. split; [reflexivity|]. simpl. split; [reflexivity|]. split; [reflexivity|].
    rewrite Hty. destruct (Exit.is_payment_complete f plate); simpl; repeat split; lia.
  - intros rows ->.
    destruct (first_row_rows plate rows) as [(pre0 & r0 & post0 & Hr0 & Hpre0 & Hn0 & Hf0)|(Hall & Hf0)].
    + split.
      * intros pre r post Hr Hpre Hn.
        assert (r = r0) as -> by (rewrite Hr in Hr0; eapply first_split_unique; eassumption).
        destruct Hl as [(its & r & t & Hi & Hf & Ht & Hl)|[Hl Hn']].
        -- injection Hi as <-. rewrite Hf0 in Hf. injection Hf as <-. rewrite Ht.
           eexists. rewrite Hl, H0. split; reflexivity.
        -- destruct (timestamp r0) as [t| |] eqn:Ht; [|congruence|congruence].
           exfalso. apply Hn'. exists (map Row rows), r0, t. auto.
      * intros Hall. exfalso. rewrite Hr0 in Hall. unfold other_plates in Hall.
        apply Forall_app in Hall as [_ Hall]. inversion Hall. contradiction.
    + split.
      * intros pre r post Hr Hpre Hn. exfalso. rewrite Hr in Hall. unfold other_plates in Hall.
        apply Forall_app in Hall as [_ Hall]. inversion Hall. contradiction.
      * intros _. destruct Hl as [(its & r & t & Hi & Hf & _)|[Hl _]]; [|congruence].
        injection Hi as <-. congruence.
Qed.

(** Witness for X18: the plate's first row, entered at 0 s, gives the entry time of its record. *)
Lemma X18_exit_record_follows_decision_witness :
  exists x, Exit.exit_log (Exit.exit_evaluation Exit.Camera true (rows_file Examples.one_session)
                             Examples.plate 60 Exit.init_state)
            = [] ++ [x] /\ Exit.ex_entry x = 0.
Proof.
  exact (proj1 (proj2 (X18_exit_record_follows_decision Exit.Camera true
                         (rows_file Examples.one_session) Examples.plate 60 Exit.init_state)
                        Examples.one_session eq_refl) [] (mk_row Examples.plate "0" (TsOk 0)) []
                eq_refl (List.Forall_nil _) eq_refl).
Defined.

(** X19: for a single paid session, the amount of the authorized exit record is at least 500 and at most the charge [calculate_charges] computes for that session at the same time. *)
Theorem X19_authorized_amount_within_session_charge (m : Exit.mode) (ard : bool)
  (plate : string) (t now_s : Z) (s : Exit.state) :
  t < now_s ->
  let charge := fst (fst (Payment.calculate_charges (rows_file [mk_row plate "0" (TsOk t)])
                            plate (now_s * 1000000))) in
  exists amount,
    Exit.exit_log (Exit.exit_evaluation m ard (rows_file [mk_row plate "1" (TsOk t)]) plate now_s s)
    = Exit.exit_log s ++ [Exit.mk_exit plate t now_s amount "AUTHORIZED" "CLEARED"]
    /\ 500 <= amount <= charge.
Proof.
  intros Hlt charge.
  exists (Z.max 500 (Z.quot ((now_s - t) * 500) 3600)).
  split.
  - unfold Exit.exit_evaluation. simpl. rewrite !String.eqb_refl. simpl.
    destruct ard; reflexivity.
  - unfold charge, Payment.calculate_charges. simpl. rewrite !String.eqb_refl. simpl.
    assert (He : 0 < now_s * 1000000 - t * 1000000) by lia.
    apply Z.ltb_lt in He. rewrite He. simpl.
    set (h := Payment.ceil_div (now_s * 1000000 - t * 1000000) Payment.us_per_hour).
    assert (Hh : now_s - t <= h * 3600).
    { unfold h, Payment.ceil_div, Payment.us_per_hour.
      pose proof (Z.mul_div_le (- (now_s * 1000000 - t * 1000000)) 3600000000 ltac:(lia)).
      lia. }
    unfold Payment.HOURLY_RATE, Payment.MINIMUM_CHARGE.
    rewrite Z.quot_div_nonneg by lia.
    assert ((now_s - t) * 500 / 3600 <= h * 500).
    { apply Z.div_le_upper_bound; lia. }
    lia.
Qed.


Lemma log_activity_firstn (a : Dashboard.activity) (recent : list Dashboard.activity) :
  (length recent <= Dashboard.MAX_ACTIVITIES)%nat ->
  Dashboard.log_activity a recent = firstn Dashboard.MAX_ACTIVITIES (a :: recent).
Proof.
  intros Hl. unfold Dashboard.log_activity.
  destruct (Dashboard.MAX_ACTIVITIES <? length (a :: recent))%nat eqn:E.
  - apply Nat.ltb_lt in E. simpl in E.
    assert (Hn : length recent = Dashboard.MAX_ACTIVITIES) by lia.
    rewrite removelast_firstn_len. simpl length. rewrite Hn. reflexivity.
  - rewrite firstn_all2; [reflexivity|]. apply Nat.ltb_ge in E. exact E.
Qed.

Lemma firstn_app_firstn {A} (n : nat) (l m : list A) :
  firstn n (l ++ firstn n m) = firstn n (l ++ m).
Proof.
  rewrite !firstn_app, firstn_firstn. f_equal. f_equal. lia.
Qed.

(** X20: [log_activity] keeps the newest MAX_ACTIVITIES activities, newest first. *)
Theorem X20_activity_feed_keeps_newest (acts recent : list Dashboard.activity) :
  (length recent <= Dashboard.MAX_ACTIVITIES)%nat ->
  fold_left (fun l a => Dashboard.log_activity a l) acts recent
  = firstn Dashboard.MAX_ACTIVITIES (rev acts ++ recent).
Proof.
  revert recent. induction acts as [|a acts IH]; intros recent Hl.
  - simpl. rewrite firstn_all2; [reflexivity|exact Hl].
  - simpl. rewrite IH.
    + rewrite log_activity_firstn by exact Hl. rewrite firstn_app_firstn, <- app_assoc.
      reflexivity.
    + rewrite log_activity_firstn by exact Hl. rewrite length_firstn. lia.
Qed.

Lemma dict_set_keys {V} (k : string) (v : V) (d : list (string * V)) :
  map fst (Dashboard.dict_set k v d)
  = if existsb (String.eqb k) (map fst d) then map fst d else map fst d ++ [k].
Proof.
  induction d as [|[k' v'] rest IH]; [reflexivity|].
  simpl. destruct (String.eqb k k') eqn:E.
  - apply String.eqb_eq in E. subst. reflexivity.
  - simpl. rewrite IH. destruct (existsb (String.eqb k) (map fst rest)); reflexivity.
Qed.

Lemma dict_set_nodup {V} (k : string) (v : V) (d : list (string * V)) :
  NoDup (map fst d) -> NoDup (map fst (Dashboard.dict_set k v d)).
Proof.
  intros Hd. rewrite dict_set_keys.
  destruct (existsb (String.eqb k) (map fst d)) eqn:E; [exact Hd|].
  apply NoDup_app. split; [exact Hd|]. split; [|apply NoDup_singleton].
  intros x Hx Hin. apply list_elem_of_singleton in Hin. subst x.
  apply list_elem_of_In in Hx.
  assert (existsb (String.eqb k) (map fst d) = true)
    by (apply existsb_exists; exists k; split; [exact Hx|apply String.eqb_refl]).
  congruence.
Qed.

Lemma dict_set_in {V} (k k' : string) (v v' : V) (d : list (string * V)) :
  NoDup (map fst d) -> In (k, v) (Dashboard.dict_set k' v' d) ->
  (k = k' /\ v = v') \/ (k <> k' /\ In (k, v) d).
Proof.
  induction d as [|[k0 v0] rest IH]; intros Hd Hin.
  - destruct Hin as [H|[]]. injection H as -> ->. left. auto.
  - simpl in Hd. apply NoDup_cons in Hd as [Hk0 Hd].
    simpl in Hin. destruct (String.eqb k' k0) eqn:E.
    + apply String.eqb_eq in E. subst k0.
      destruct Hin as [H|H]; [injection H as -> ->; left; auto|].
      right. split; [|right; exact H].
      intros ->. apply Hk0. apply list_elem_of_In, in_map_iff. exists (k', v). auto.
    + apply String.eqb_neq in E.
      destruct Hin as [H|H].
      * injection H as -> ->. right. split; [congruence|left; reflexivity].
      * destruct (IH Hd H) as [?|[? ?]]; [left; exact H0|right; split; [assumption|right; assumption]].
Qed.

Lemma entered_vehicles_snoc (rows : list session_row) (r : session_row) :
  Dashboard.entered_vehicles (rows ++ [r])
  = Dashboard.dict_set (plate_number r) (timestamp r, payment_status r)
      (Dashboard.entered_vehicles rows).
Proof. unfold Dashboard.entered_vehicles. rewrite fold_left_app. reflexivity. Qed.

Lemma entered_vehicles_nodup (rows : list session_row) :
  NoDup (map fst (Dashboard.entered_vehicles rows)).
Proof.
  induction rows as [|r rows IH] using rev_ind; [constructor|].
  rewrite entered_vehicles_snoc. apply dict_set_nodup, IH.
Qed.

Lemma entered_vehicles_keys (rows : list session_row) (k : string) :
  In k (map fst (Dashboard.entered_vehicles rows)) <-> In k (map plate_number rows).
Proof.
  revert k. induction rows as [|r rows IH] using rev_ind; intros k; [reflexivity|].
  rewrite entered_vehicles_snoc, dict_set_keys, map_app, in_app_iff. simpl.
  destruct (existsb (String.eqb (plate_number r)) (map fst (Dashboard.entered_vehicles rows)))
    eqn:E.
  - apply existsb_exists in E as (k' & Hk' & Hq). apply String.eqb_eq in Hq. subst k'.
    rewrite IH in Hk'. rewrite IH. split; [tauto|].
    intros [H|[H|[]]]; [exact H|subst; exact Hk'].
  - rewrite in_app_iff, IH. simpl. tauto.
Qed.

Lemma entered_vehicles_last (rows : list session_row) (k : string) (v : ts_cell * string) :
  In (k, v) (Dashboard.entered_vehicles rows) ->
  exists pre r post, rows = pre ++ r :: post /\ plate_number r = k
    /\ v = (timestamp r, payment_status r)
    /\ Forall (fun r' => plate_number r' <> k) post.
Proof.
  induction rows as [|r rows IH] using rev_ind; [intros []|].
  rewrite entered_vehicles_snoc. intros Hin.
  destruct (dict_set_in _ _ _ _ _ (entered_vehicles_nodup rows) Hin) as [[-> ->]|[Hne H]].
  - exists rows, r, []. repeat split; [constructor].
  - destruct (IH H) as (pre & r0 & post & -> & Hp & Hv & Hpost).
    exists pre, r0, (post ++ [r]). repeat split; try assumption.
    + rewrite <- app_assoc. reflexivity.
    + apply Forall_app. split; [exact Hpost|]. constructor; [congruence|constructor].
Qed.

Lemma inside_loop_in (exited : gset string) (d : list (string * (ts_cell * string)))
  (v : Dashboard.vehicle_view) :
  In v (Dashboard.inside_loop exited d) ->
  (Dashboard.v_plate v ∉ exited)
  /\ exists st, In (Dashboard.v_plate v, (TsOk (Dashboard.v_entry_time v), st)) d
       /\ Dashboard.v_payment_status v = (if String.eqb st "1" then "Paid" else "Pending").
Proof.
  induction d as [|[k [ts st]] rest IH]; [intros []|].
  simpl. destruct (decide (k ∈ exited)) as [Hk|Hk].
  - intros H. destruct (IH H) as [Hx (st' & Hin & Hs)]. split; [exact Hx|].
    exists st'. split; [right; exact Hin|exact Hs].
  - destruct ts as [t| |]; [|intros []..].
    intros [<-|H].
    + simpl. split; [exact Hk|]. exists st. split; [left; reflexivity|reflexivity].
    + destruct (IH H) as [Hx (st' & Hin & Hs)]. split; [exact Hx|].
      exists st'. split; [right; exact Hin|exact Hs].
Qed.

Lemma vehicles_inside_rows (rows : list session_row) (xs : list Exit.exit_row) :
  Dashboard.get_vehicles_inside (rows_file rows) (rows_file xs)
  = Dashboard.inside_loop (list_to_set (map Exit.ex_plate xs)) (Dashboard.entered_vehicles rows).
Proof.
  unfold Dashboard.get_vehicles_inside, Stats.read_sessions, Stats.read_exits, rows_file.
  rewrite !all_rows_map. reflexivity.
Qed.

(** X21: each vehicle listed by [/vehicles/inside] has no exit record, and its entry time and Paid/Pending label come from the last Session row of its plate. *)
Theorem X21_inside_entry_reflects_latest_row (rows : list session_row) (xs : list Exit.exit_row)
  (v : Dashboard.vehicle_view) :
  In v (Dashboard.get_vehicles_inside (rows_file rows) (rows_file xs)) ->
  ~ In (Dashboard.v_plate v) (map Exit.ex_plate xs)
  /\ exists pre r post, rows = pre ++ r :: post
       /\ plate_number r = Dashboard.v_plate v
       /\ Forall (fun r' => plate_number r' <> Dashboard.v_plate v) post
       /\ timestamp r = TsOk (Dashboard.v_entry_time v)
       /\ Dashboard.v_payment_status v
          = (if String.eqb (payment_status r) "1" then "Paid" else "Pending").
Proof.
  rewrite vehicles_inside_rows. intros Hin.
  destruct (inside_loop_in _ _ _ Hin) as [Hx (st & Hd & Hs)].
  split.
  - intros H. apply Hx. apply elem_of_list_to_set, list_elem_of_In, H.
  - destruct (entered_vehicles_last _ _ _ Hd) as (pre & r & post & Hr & Hp & Hv & Hpost).
    injection Hv as Ht Hst. exists pre, r, post. repeat split; try assumption.
    + congruence.
    + rewrite Hs, Hst. reflexivity.
Qed.

Lemma inside_loop_length (exited : gset string) (d : list (string * (ts_cell * string))) :
  Forall (fun kv => exists t, fst (snd kv) = TsOk t) d ->
  length (Dashboard.inside_loop exited d) = length (filter (fun k => k ∉ exited) (map fst d)).
Proof.
  induction d as [|[k [ts st]] rest IH]; intros Hall; [reflexivity|].
  apply Forall_cons in Hall as [[t Ht] Hall]. simpl in Ht. subst ts.
  simpl. rewrite filter_cons.
  destruct (decide (k ∈ exited)) as [Hk|Hk].
  - rewrite decide_False by (intros H; exact (H Hk)). apply IH, Hall.
  - rewrite decide_True by exact Hk. simpl. f_equal. apply IH, Hall.
Qed.

(** X22: when every Session timestamp parses, [/vehicles/inside] lists exactly as many vehicles as the vehicles_inside count of [update_system_stats]. *)
Theorem X22_inside_list_matches_inside_count (rows : list session_row)
  (xs : list Exit.exit_row) (old : Stats.system_stats) :
  Forall (fun r => exists t, timestamp r = TsOk t) rows ->
  length (Dashboard.get_vehicles_inside (rows_file rows) (rows_file xs))
  = Stats.vehicles_inside (Stats.update_system_stats (rows_file rows) (rows_file xs) old).
Proof.
  intros Hts. rewrite vehicles_inside_rows.
  unfold Stats.update_system_stats, Stats.read_sessions, Stats.read_exits, rows_file.
  rewrite !all_rows_map. simpl.
  set (X := list_to_set (map Exit.ex_plate xs) : gset string).
  rewrite inside_loop_length.
  - assert (Hset : Stats.plates_of rows ∖ X
                   = list_to_set (filter (fun k => k ∉ X) (map fst (Dashboard.entered_vehicles rows)))).
    { apply set_eq. intros k.
      rewrite elem_of_difference, elem_of_list_to_set, list_elem_of_filter.
      unfold Stats.plates_of. rewrite elem_of_list_to_set, !list_elem_of_In.
      rewrite entered_vehicles_keys. tauto. }
    rewrite Hset, size_list_to_set; [reflexivity|].
    apply NoDup_filter, entered_vehicles_nodup.
  - apply List.Forall_forall. intros [k v] Hin.
    destruct (entered_vehicles_last _ _ _ Hin) as (pre & r & post & Hr & _ & -> & _).
    rewrite List.Forall_forall in Hts. apply Hts. rewrite Hr. apply in_or_app. right. left.
    reflexivity.
Qed.

Lemma size_list_to_set_le (l : list string) : (size (list_to_set l : gset string) <= length l)%nat.
Proof.
  induction l as [|x l IH]; [apply Nat.eq_le_incl; reflexivity|].
  rewrite list_to_set_cons, size_union_alt, size_singleton. simpl.
  pose proof (subseteq_size (list_to_set l ∖ {[x]} : gset string) (list_to_set l)
                ltac:(set_solver)). lia.
Qed.

(** X23: the counts of [update_system_stats] are consistent: paid plus pending is the number of rows, and active <= inside <= total <= rows. *)
Theorem X23_stats_counts_bounded (rows : list session_row) (xs : list Exit.exit_row)
  (old : Stats.system_stats) :
  let st := Stats.update_system_stats (rows_file rows) (rows_file xs) old in
  (Stats.paid_vehicles st + Stats.pending_payments st = length rows
   /\ Stats.active_sessions st <= Stats.vehicles_inside st
   /\ Stats.vehicles_inside st <= Stats.total_vehicles st
   /\ Stats.total_vehicles st <= length rows)%nat.
Proof.
  unfold Stats.update_system_stats, Stats.read_sessions, Stats.read_exits, rows_file.
  rewrite !all_rows_map. simpl.
  pose proof (List.filter_length_le (fun r => String.eqb (payment_status r) "1") rows).
  split; [lia|]. split; [|split].
  - apply subseteq_size. intros x Hx. apply elem_of_filter in Hx. tauto.
  - apply subseteq_size. set_solver.
  - unfold Stats.plates_of. etransitivity; [apply size_list_to_set_le|].
    rewrite length_map. lia.
Qed.


Lemma pad2_small (m : Z) : 0 <= m < 60 ->
  String.length (PaymentLoop.pad2 m) = 2%nat /\ py_int (PaymentLoop.pad2 m) = Some m.
Proof.
  intros Hm.
  assert (Hk : exists k : nat, m = Z.of_nat k /\ (k < 60)%nat)
    by (exists (Z.to_nat m); split; lia).
  destruct Hk as [k [-> Hk]].
  do 60 (destruct k as [|k]; [split; vm_compute; reflexivity|]). lia.
Qed.

(** X24: a duration returned by [calculate_charges] has non-negative hours and minutes below 60, the minutes being written with exactly two digits that [int()] reads back. *)
Theorem X24_duration_minutes_two_digits (f : csv_file) (plate : string) (now_us : Z)
  (total sessions h m : Z) :
  Payment.calculate_charges f plate now_us = (total, sessions, Payment.Dur h m) ->
  0 <= h /\ 0 <= m < 60
  /\ PaymentLoop.duration_text (Payment.Dur h m)
     = z_to_str h +++ ":" +++ PaymentLoop.pad2 m +++ ":00"
  /\ String.length (PaymentLoop.pad2 m) = 2%nat /\ py_int (PaymentLoop.pad2 m) = Some m.
Proof.
  intros Hc.
  assert (Hd : exists dur, 0 < dur /\ Payment.duration_str dur = Payment.Dur h m).
  { unfold Payment.calculate_charges in Hc.
    destruct f as [| |its]; try discriminate.
    destruct (Payment.charge_loop plate now_us (0, 0, 0) its) as [[[t0 s0] dur]|]; [|discriminate].
    injection Hc as _ _ Hdur. exists dur. split; [|exact Hdur].
    unfold Payment.duration_str in Hdur. destruct (0 <? dur) eqn:E; [|discriminate].
    apply Z.ltb_lt, E. }
  destruct Hd as (dur & Hpos & Hdur).
  unfold Payment.duration_str in Hdur. apply Z.ltb_lt in Hpos as Hb. rewrite Hb in Hdur.
  injection Hdur as <- <-.
  unfold Payment.us_per_hour, Payment.us_per_minute.
  assert (0 <= dur / 3600000000) by (apply Z.div_pos; lia).
  assert (0 <= dur mod 3600000000 < 3600000000) by (apply Z.mod_pos_bound; lia).
  assert (Hm : 0 <= dur mod 3600000000 / 60000000 < 60).
  { split; [apply Z.div_pos; lia|]. apply Z.div_lt_upper_bound; lia. }
  destruct (pad2_small _ Hm) as [Hl Hp].
  split; [assumption|]. split; [exact Hm|]. split; [reflexivity|]. split; assumption.
Qed.

(** X25: with an Arduino, an exit evaluation at second t sends one command at t and a 0 after the thread's sleep: the command is 1 (open) with the 0 at t + 10 exactly when the payment check passes, and otherwise 2, 8 or 9 with the 0 at t + 5; the bytes of threads that overlap in time interleave on the line.  Without an Arduino it sends nothing. *)
Theorem X25_exit_signals_follow_decision (m : Exit.mode) (ard : bool) (f : csv_file)
  (plate : string) (now_s : Z) (s : Exit.state) :
  let s' := Exit.exit_evaluation m ard f plate now_s s in
  if ard then
    exists sig d, Exit.signals s' = Exit.signals s ++ [(now_s, sig); (now_s + d, "0")]
      /\ (sig = "1" <-> Exit.is_payment_complete f plate = true)
      /\ d = (if Exit.is_payment_complete f plate then 10 else 5)
      /\ In sig ["1"; "2"; "8"; "9"]
  else Exit.signals s' = Exit.signals s.
Proof.
  destruct (Exit.is_payment_complete f plate) eqn:Hp.
  - destruct (granted_step m ard f plate now_s s Hp) as (_ & _ & _ & Hs).
    destruct ard; simpl in *.
    + exists "1", 10. split; [exact Hs|]. split; [tauto|]. split; [reflexivity|left; reflexivity].
    + rewrite Hs, app_nil_r. reflexivity.
  - destruct ard; simpl.
    + destruct (denied_step m f plate now_s s Hp) as (_ & _ & _ & Hs).
      eexists _, 5. split; [exact Hs|].
      unfold Exit.classify.
      destruct (Exit.MAX_UNAUTHORIZED_ATTEMPTS <=? _); [|destruct (2 <=? _)]; simpl;
        (split; [split; [discriminate|discriminate]|split; [reflexivity|tauto]]).
    + unfold Exit.exit_evaluation. rewrite Hp.
      match goal with |- context [Exit.log_exit_to_csv f plate "UNAUTHORIZED" now_s ?s0] =>
        destruct (log_exit_keeps f plate "UNAUTHORIZED" now_s s0) as (_ & _ & _ & ->) end.
      destruct m; reflexivity.
Qed.

(** X26: an exit evaluation of a plate never changes another plate's attempt counter, and every alert and incident report it adds is about that plate. *)
Theorem X26_exit_evaluation_isolates_plates (m : Exit.mode) (ard : bool) (f : csv_file)
  (plate : string) (now_s : Z) (s : Exit.state) :
  let s' := Exit.exit_evaluation m ard f plate now_s s in
  (forall q, q <> plate -> Exit.attempts s' !! q = Exit.attempts s !! q)
  /\ (exists new, Exit.alerts s' = Exit.alerts s ++ new
                  /\ Forall (fun a => Exit.al_plate a = plate) new)
  /\ (exists new, Exit.reports s' = Exit.reports s ++ new /\ Forall (fun r => fst r = plate) new).
Proof.
  destruct (Exit.is_payment_complete f plate) eqn:Hp.
  - destruct (granted_step m ard f plate now_s s Hp) as (Ha & Hl & Hr & _).
    split; [|split].
    + intros q Hq. rewrite Ha. apply lookup_delete_ne. congruence.
    + exists []. rewrite Hl, app_nil_r. split; [reflexivity|constructor].
    + exists []. rewrite Hr, app_nil_r. split; [reflexivity|constructor].
  - destruct ard.
    + destruct (denied_step m f plate now_s s Hp) as (Ha & Hl & Hr & _).
      split; [|split].
      * intros q Hq. rewrite Ha. apply lookup_insert_ne. congruence.
      * eexists. split; [exact Hl|]. repeat constructor.
      * eexists. split; [exact Hr|].
        destruct (Exit.MAX_UNAUTHORIZED_ATTEMPTS <=? _); repeat constructor.
    + unfold Exit.exit_evaluation. rewrite Hp.
      match goal with |- context [Exit.log_exit_to_csv f plate "UNAUTHORIZED" now_s ?s0] =>
        destruct (log_exit_keeps f plate "UNAUTHORIZED" now_s s0) as (-> & -> & -> & _) end.
      destruct m; simpl; (split; [reflexivity|split]).
      * eexists. split; [reflexivity|]. repeat constructor.
      * exists []. rewrite app_nil_r. split; [reflexivity|constructor].
      * exists []. rewrite app_nil_r. split; [reflexivity|constructor].
      * exists []. rewrite app_nil_r. split; [reflexivity|constructor].
Qed.

Lemma X10_success_reply_reports_charge_witness :
  exists d, option_map PaymentLoop.response
    (PaymentLoop.handle_line (Payment.mk_env Payment.Works None) (rows_file Examples.one_session)
       ("PROCESS_PAYMENT:" +++ String.concat "," ["RAD667J"; "1500"]) "2024-01-01 11:30:00"
       (Examples.us 90))
  = Some (Some ("PAYMENT_SUCCESS:500,1000," +++ d)).
Proof.
  destruct (X10_success_reply_reports_charge (Payment.mk_env Payment.Works None)
              (rows_file Examples.one_session) "PROCESS_PAYMENT:" "RAD667J" "1500" []
              "2024-01-01 11:30:00" (Examples.us 90) 1500 1000 1 (Payment.Dur 1 30))
    as (rows & d & _ & H);
    [left; reflexivity | reflexivity | reflexivity | repeat constructor
    | vm_compute; reflexivity | vm_compute; reflexivity | discriminate | lia |].
  exists d. rewrite H. reflexivity.
Defined.

Lemma X11_insufficient_reply_and_log_witness :
  option_map PaymentLoop.response
    (PaymentLoop.handle_line (Payment.mk_env Payment.Works None) (rows_file Examples.one_session)
       ("CALCULATE_PAYMENT:" +++ String.concat "," ["RAD667J"; " 400"]) "2024-01-01 11:30:00"
       (Examples.us 90))
  = Some (Some "INSUFFICIENT_FUNDS:1000,400").
Proof.
  rewrite (X11_insufficient_reply_and_log (Payment.mk_env Payment.Works None)
             (rows_file Examples.one_session) "CALCULATE_PAYMENT:" "RAD667J" " 400" []
             "2024-01-01 11:30:00" (Examples.us 90) 400 1000 1 (Payment.Dur 1 30));
    [vm_compute; reflexivity | right; reflexivity | reflexivity | repeat constructor
    | vm_compute; reflexivity | vm_compute; reflexivity | lia | lia].
Defined.

Lemma X12_int_parses_rendered_numbers_witness : py_int (z_to_str (-1500)) = Some (-1500).
Proof. apply X12_int_parses_rendered_numbers. vm_compute. reflexivity. Defined.

Lemma X16_entry_cooldown_blocks_same_plate_witness :
  plate_number (mk_row "RAB123C" "0" (TsOk 100)) <> "RAD667J".
Proof.
  apply (X16_entry_cooldown_blocks_same_plate true "RAD667J"
           (Camera.mk_entry (Camera.mk_watcher [] (Some "RAD667J") 0) [] [])
           [("RAD667J", 100000000); ("RAD 667J", 100000001); ("RAD667J", 100000002);
            ("RAB123C", 100000003); ("RAB 123C", 100000004); ("RAB123C", 100000005)]
           (mk_row "RAB123C" "0" (TsOk 100)) []).
  - reflexivity.
  - repeat constructor; vm_compute; discriminate.
  - vm_compute. reflexivity.
Defined.

Lemma X17_exit_cooldown_ignores_same_plate_witness :
  let st := Camera.exit_run true (rows_file Examples.one_session)
              [("RAD667J", 1000000); ("RAD 667J", 2000000); ("no plate", 3000000);
               ("RAD667J", 4000000)]
              (Camera.mk_watcher [] (Some "RAD667J") 0, Exit.init_state) in
  snd st = Exit.init_state /\ Camera.last_plate (fst st) = Some "RAD667J"
  /\ Camera.last_time (fst st) = 0.
Proof.
  apply (X17_exit_cooldown_ignores_same_plate true (rows_file Examples.one_session) "RAD667J"
           (Camera.mk_watcher [] (Some "RAD667J") 0) Exit.init_state).
  - reflexivity.
  - constructor.
  - repeat constructor;
      first [right; vm_compute; reflexivity | left; vm_compute; reflexivity
            | vm_compute; discriminate].
Defined.

Lemma X19_authorized_amount_within_session_charge_witness :
  exists amount,
    Exit.exit_log (Exit.exit_evaluation Exit.Camera true
                     (rows_file [mk_row "RAD667J" "1" (TsOk 0)]) "RAD667J" 5400 Exit.init_state)
    = Exit.exit_log Exit.init_state
      ++ [Exit.mk_exit "RAD667J" 0 5400 amount "AUTHORIZED" "CLEARED"]
    /\ 500 <= amount
         <= fst (fst (Payment.calculate_charges (rows_file [mk_row "RAD667J" "0" (TsOk 0)])
                        "RAD667J" (5400 * 1000000))).
Proof.
  apply (X19_authorized_amount_within_session_charge Exit.Camera true "RAD667J" 0 5400
           Exit.init_state). lia.
Defined.

Lemma X20_activity_feed_keeps_newest_witness :
  let a1 := Dashboard.mk_activity "2024-01-01 10:00:00" "ENTRY" "RAD667J" "" "INFO" in
  let a2 := Dashboard.mk_activity "2024-01-01 11:30:00" "PAYMENT" "RAD667J" "" "SUCCESS" in
  fold_left (fun l a => Dashboard.log_activity a l) [a1; a2] [] = [a2; a1].
Proof.
  intros a1 a2.
  rewrite (X20_activity_feed_keeps_newest [a1; a2] []); [reflexivity|simpl; lia].
Defined.

Lemma X21_inside_entry_reflects_latest_row_witness :
  ~ In "RAD667J" (map Exit.ex_plate [])
  /\ exists pre r post, Examples.two_sessions = pre ++ r :: post
       /\ plate_number r = "RAD667J"
       /\ Forall (fun r' => plate_number r' <> "RAD667J") post
       /\ timestamp r = TsOk 3600
       /\ "Pending" = (if String.eqb (payment_status r) "1" then "Paid" else "Pending").
Proof.
  apply (X21_inside_entry_reflects_latest_row Examples.two_sessions []
           (Dashboard.mk_view "RAD667J" 3600 "Pending")).
  vm_compute. left. reflexivity.
Defined.

Lemma X22_inside_list_matches_inside_count_witness :
  length (Dashboard.get_vehicles_inside (rows_file Examples.two_sessions) (rows_file []))
  = Stats.vehicles_inside (Stats.update_system_stats (rows_file Examples.two_sessions)
                             (rows_file []) Stats.initial_stats).
Proof.
  apply X22_inside_list_matches_inside_count.
  apply List.Forall_forall. intros r [<-|[<-|[]]]; eexists; reflexivity.
Defined.

Lemma X24_duration_minutes_two_digits_witness :
  0 <= 1 /\ 0 <= 30 < 60
  /\ PaymentLoop.duration_text (Payment.Dur 1 30)
     = z_to_str 1 +++ ":" +++ PaymentLoop.pad2 30 +++ ":00"
  /\ String.length (PaymentLoop.pad2 30) = 2%nat /\ py_int (PaymentLoop.pad2 30) = Some 30.
Proof.
  apply (X24_duration_minutes_two_digits (rows_file Examples.one_session) Examples.plate
           (Examples.us 90) 1000 1).
  vm_compute. reflexivity.
Defined.
